(** * A shallow embedding of the dialogue state machine of
    [components/conversation_manager.py], together with the parts of
    [components/llm_client.py] and [utils/helpers.py] it relies on.

    Python dictionaries are modelled as stdpp [gmap string Value];
    JSON values (the entity values produced by the classifier) as the
    inductive [Value]; Python truthiness and [str(..).strip()] are written
    out.  Text is read as Latin-1, one [ascii] per character. *)

From Stdlib Require Import String Ascii Bool.
From stdpp Require Import base gmap strings list pretty.

Set Warnings "-register-all".
Open Scope string_scope.
Open Scope nat_scope.

(* ------------------------------------------------------------------ *)
(** ** JSON values and Python truthiness *)

(** A JSON value as [json.loads] builds it: an object is the list of its
    items, in order and with distinct keys; numbers are the integers. *)
Inductive Value : Type :=
  | VNone : Value
  | VBool : bool -> Value
  | VInt : Z -> Value
  | VStr : string -> Value
  | VList : list Value -> Value
  | VDict : list (string * Value) -> Value.

(** [dict(items)]: of two equal keys the later one wins. *)
Definition dict_of_items (l : list (string * Value)) : gmap string Value :=
  list_to_map (rev l).

(** [bool(v)] *)
Definition truthy (v : Value) : bool :=
  match v with
  | VNone => false
  | VBool b => b
  | VInt z => negb (Z.eqb z 0)
  | VStr s => negb (String.eqb s "")
  | VList l => negb (Nat.eqb (length l) 0)
  | VDict l => negb (Nat.eqb (length l) 0)
  end.

(** Characters for which Python's [str.isspace] holds, among the
    Latin-1 range: tab .. carriage return, the separators 0x1c .. 0x1f,
    space, NEL and NBSP.  [str.strip()] removes exactly these. *)
Definition is_py_space (c : ascii) : bool :=
  let n := nat_of_ascii c in
  ((9 <=? n) && (n <=? 13)) || ((28 <=? n) && (n <=? 32))
  || (n =? 133) || (n =? 160).

(** [bool(s.strip())]: some character is not whitespace. *)
Fixpoint has_nonspace (s : string) : bool :=
  match s with
  | EmptyString => false
  | String c r => negb (is_py_space c) || has_nonspace r
  end.

(** [repr(v)], used by [str] on lists and dicts.  Strings are quoted
    with single quotes; Python's escaping of quotes and control
    characters inside the repr is not modelled. *)
Fixpoint py_repr (v : Value) : string :=
  match v with
  | VNone => "None"
  | VBool true => "True"
  | VBool false => "False"
  | VInt z => pretty z
  | VStr s => "'" ++ s ++ "'"
  | VList l =>
      "[" ++ (fix go (l : list Value) : string :=
                match l with
                | [] => ""
                | [x] => py_repr x
                | x :: r => py_repr x ++ ", " ++ go r
                end) l ++ "]"
  | VDict l =>
      "{" ++ (fix go (l : list (string * Value)) : string :=
                match l with
                | [] => ""
                | [(k, x)] => "'" ++ k ++ "': " ++ py_repr x
                | (k, x) :: r => "'" ++ k ++ "': " ++ py_repr x ++ ", " ++ go r
                end) l ++ "}"
  end.

(** [str(v)] *)
Definition py_str (v : Value) : string :=
  match v with
  | VStr s => s
  | _ => py_repr v
  end.

(** [bool(str(v).strip())]: for anything but a string, [str] never
    yields a blank text. *)
Definition str_nonblank (v : Value) : bool :=
  match v with
  | VStr s => has_nonspace s
  | _ => true
  end.

(** [entities.get(field) and str(entities.get(field)).strip()], read as
    a truth value; a missing key gives [None]. *)
Definition field_filled (entities : gmap string Value) (field : string) : bool :=
  match entities !! field with
  | Some v => truthy v && str_nonblank v
  | None => false
  end.

(** [entities.get(field)] read as a truth value *)
Definition get_truthy (entities : gmap string Value) (field : string) : bool :=
  match entities !! field with
  | Some v => truthy v
  | None => false
  end.

(** [type(v).__name__] *)
Definition py_type_name (v : Value) : string :=
  match v with
  | VNone => "NoneType"
  | VBool _ => "bool"
  | VInt _ => "int"
  | VStr _ => "str"
  | VList _ => "list"
  | VDict _ => "dict"
  end.

(** A Python computation that returned a value, or raised an exception
    with the message [str(e)] *)
Inductive PyResult (A : Type) :=
  | POk (a : A)
  | PRaise (msg : string).
Arguments POk {A} a.
Arguments PRaise {A} msg.

(** The message of the [AttributeError] of [v.attr] *)
Definition no_attr (v : Value) (attr : string) : string :=
  "'" ++ py_type_name v ++ "' object has no attribute '" ++ attr ++ "'".

(* ------------------------------------------------------------------ *)
(** ** [utils/helpers.py]: [validate_email_addresses]

    The pattern [\b[A-Za-z0-9._%+-]+@[A-Za-z0-9.-]+\.[A-Z|a-z]{2,}\b],
    searched with [re.search] (a match at some start position, with
    backtracking over the lengths of the three runs). *)

Definition in_range (lo hi : nat) (c : ascii) : bool :=
  let n := nat_of_ascii c in (lo <=? n) && (n <=? hi).

Definition is_alpha_ascii (c : ascii) : bool :=
  in_range 65 90 c || in_range 97 122 c.

Definition is_digit_ascii (c : ascii) : bool := in_range 48 57 c.

(** [\w] in a str pattern: alphanumeric ([str.isalnum]) or underscore;
    in Latin-1 the letters and numerics above 127 count too. *)
Definition is_word (c : ascii) : bool :=
  let n := nat_of_ascii c in
  is_alpha_ascii c || is_digit_ascii c || (n =? 95)
  || (n =? 170) || (n =? 178) || (n =? 179) || (n =? 181) || (n =? 185)
  || (n =? 186) || in_range 188 190 c || in_range 192 214 c
  || in_range 216 246 c || in_range 248 255 c.

Definition is_local_char (c : ascii) : bool :=
  is_alpha_ascii c || is_digit_ascii c
  || existsb (fun d => Ascii.eqb c d) ["."; "_"; "%"; "+"; "-"]%char.

Definition is_domain_char (c : ascii) : bool :=
  is_alpha_ascii c || is_digit_ascii c
  || existsb (fun d => Ascii.eqb c d) ["."; "-"]%char.

Definition is_tld_char (c : ascii) : bool :=
  is_alpha_ascii c || Ascii.eqb c "|".

Definition word_opt (c : option ascii) : bool :=
  match c with Some c => is_word c | None => false end.

(** [\b] between the character [prev] (none at the start) and the rest
    [cs] of the text. *)
Definition boundary (prev : option ascii) (cs : list ascii) : bool :=
  xorb (word_opt prev) (word_opt (head cs)).

(** [[A-Z|a-z]{2,}\b], having consumed [n] characters, the last one [prev] *)
Fixpoint tld_run (prev : ascii) (n : nat) (cs : list ascii) : bool :=
  ((2 <=? n) && boundary (Some prev) cs)
  || match cs with
     | [] => false
     | c :: r => is_tld_char c && tld_run c (S n) r
     end.

(** [[A-Za-z0-9.-]+\.] followed by the tld run *)
Fixpoint dom_plus (cs : list ascii) : bool :=
  match cs with
  | [] => false
  | c :: r =>
      is_domain_char c
      && (match r with
          | d :: r' => Ascii.eqb d "." && tld_run d 0 r'
          | [] => false
          end
          || dom_plus r)
  end.

(** [[A-Za-z0-9._%+-]+@] followed by the domain *)
Fixpoint local_plus (cs : list ascii) : bool :=
  match cs with
  | [] => false
  | c :: r =>
      is_local_char c
      && (match r with
          | a :: r' => Ascii.eqb a "@" && dom_plus r'
          | [] => false
          end
          || local_plus r)
  end.

(** [re.search]: try every start position, the leading [\b] included *)
Fixpoint search_from (prev : option ascii) (cs : list ascii) : bool :=
  (boundary prev cs && local_plus cs)
  || match cs with
     | [] => false
     | c :: r => search_from (Some c) r
     end.

Definition email_search (s : string) : bool :=
  search_from None (list_ascii_of_string s).

Definition validate_email_addresses (recipients : Value) : bool :=
  if negb (truthy recipients) then false
  else match recipients with
       | VStr s => email_search s
       | VList l =>
           forallb (fun r => if truthy r then email_search (py_str r) else true) l
       | _ => false
       end.

(* ------------------------------------------------------------------ *)
(** ** Text helpers: [str.strip], [str.lower], [in] on strings *)

Fixpoint lstrip_list (l : list ascii) : list ascii :=
  match l with
  | c :: r => if is_py_space c then lstrip_list r else l
  | [] => []
  end.

Definition rstrip_list (l : list ascii) : list ascii :=
  rev (lstrip_list (rev l)).

(** [s.strip()] *)
Definition py_strip (s : string) : string :=
  string_of_list_ascii (rstrip_list (lstrip_list (list_ascii_of_string s))).

(** [c.lower()] on Latin-1: A-Z and the accented capitals. *)
Definition ascii_lower (c : ascii) : ascii :=
  if in_range 65 90 c || in_range 192 214 c || in_range 216 222 c
  then ascii_of_nat (nat_of_ascii c + 32) else c.

Fixpoint py_lower (s : string) : string :=
  match s with
  | EmptyString => EmptyString
  | String c r => String (ascii_lower c) (py_lower r)
  end.

Fixpoint str_prefix (p s : string) : bool :=
  match p, s with
  | EmptyString, _ => true
  | String c p', String d s' => Ascii.eqb c d && str_prefix p' s'
  | String _ _, EmptyString => false
  end.

(** [sub in s] *)
Fixpoint str_contains (s sub : string) : bool :=
  str_prefix sub s
  || match s with
     | EmptyString => false
     | String _ r => str_contains r sub
     end.

(** [sep.join(items)] *)
Fixpoint str_join (sep : string) (items : list string) : string :=
  match items with
  | [] => ""
  | [x] => x
  | x :: r => x ++ sep ++ str_join sep r
  end.


(* ------------------------------------------------------------------ *)
(** ** The session state ([ConversationManager.state]) *)

(** The object held by [state["entities"]].  It is a dict when it comes
    from [_reset_state] or from a JSON object: its string keys are kept
    as a map, and the entries whose key is a number, a boolean or [None]
    (which [dict.update] with a list of pairs can add) as a list in
    insertion order.  After a new intent whose [entities] is not a JSON
    object it is that other value; [EOther] never holds a [VDict]. *)
Inductive Entities :=
  | EDict (m : gmap string Value) (other : list (Value * Value))
  | EOther (v : Value).

(** [self.state["entities"] = v] for a JSON value [v] *)
Definition entities_of_value (v : Value) : Entities :=
  match v with
  | VDict l => EDict (dict_of_items l) []
  | _ => EOther v
  end.

(** [{"user_input", "bot_response", "timestamp", "state_snapshot"}] *)
Record HistoryEntry := mkEntry {
  user_input : string;
  bot_response : string;
  timestamp : string;
  state_snapshot : Entities
}.

(** [state["last_saved_action"]] when set *)
Record SavedAction := mkSaved {
  sa_filename : string;
  sa_filepath : string;
  sa_action_type : option string;
  sa_summary : string;
  sa_saved_at : string
}.

Record State := mkState {
  intent : option string;
  entities_obj : Entities;
  awaiting_confirmation : bool;
  awaiting_email_addresses : bool;
  history : list HistoryEntry;
  session_active : bool;
  last_saved_action : option SavedAction
}.

(** The string-keyed entries of [state["entities"]]: what
    [entities.get(k)] reads for a string [k] when the entities are a
    dict.  Empty when they are not a dict (then [get] raises, see
    [is_ready_for_execution]). *)
Definition entities (s : State) : gmap string Value :=
  match entities_obj s with
  | EDict m _ => m
  | EOther _ => ∅
  end.

(** [self.max_history = 10] *)
Definition max_history : nat := 10.

(** [_reset_state] *)
Definition reset_state : State :=
  {| intent := None; entities_obj := EDict ∅ []; awaiting_confirmation := false;
     awaiting_email_addresses := false; history := [];
     session_active := false; last_saved_action := None |}.

(** Record updates, one per assigned key. *)
Definition set_intent (i : option string) (s : State) : State :=
  {| intent := i; entities_obj := entities_obj s;
     awaiting_confirmation := awaiting_confirmation s;
     awaiting_email_addresses := awaiting_email_addresses s;
     history := history s; session_active := session_active s;
     last_saved_action := last_saved_action s |}.

Definition set_entities (e : Entities) (s : State) : State :=
  {| intent := intent s; entities_obj := e;
     awaiting_confirmation := awaiting_confirmation s;
     awaiting_email_addresses := awaiting_email_addresses s;
     history := history s; session_active := session_active s;
     last_saved_action := last_saved_action s |}.

Definition set_awaiting_confirmation (b : bool) (s : State) : State :=
  {| intent := intent s; entities_obj := entities_obj s;
     awaiting_confirmation := b;
     awaiting_email_addresses := awaiting_email_addresses s;
     history := history s; session_active := session_active s;
     last_saved_action := last_saved_action s |}.

Definition set_awaiting_email_addresses (b : bool) (s : State) : State :=
  {| intent := intent s; entities_obj := entities_obj s;
     awaiting_confirmation := awaiting_confirmation s;
     awaiting_email_addresses := b;
     history := history s; session_active := session_active s;
     last_saved_action := last_saved_action s |}.

Definition set_history (h : list HistoryEntry) (s : State) : State :=
  {| intent := intent s; entities_obj := entities_obj s;
     awaiting_confirmation := awaiting_confirmation s;
     awaiting_email_addresses := awaiting_email_addresses s;
     history := h; session_active := session_active s;
     last_saved_action := last_saved_action s |}.

Definition set_session_active (b : bool) (s : State) : State :=
  {| intent := intent s; entities_obj := entities_obj s;
     awaiting_confirmation := awaiting_confirmation s;
     awaiting_email_addresses := awaiting_email_addresses s;
     history := history s; session_active := b;
     last_saved_action := last_saved_action s |}.

Definition set_last_saved_action (a : option SavedAction) (s : State) : State :=
  {| intent := intent s; entities_obj := entities_obj s;
     awaiting_confirmation := awaiting_confirmation s;
     awaiting_email_addresses := awaiting_email_addresses s;
     history := history s; session_active := session_active s;
     last_saved_action := a |}.

(* ------------------------------------------------------------------ *)
(** ** The classifier's answer ([llm_response], a dict)

    Each optional field is [None] when the key is absent, so that the
    defaults of [llm_response.get(key, default)] are applied by the code
    that reads it.  [entities] and [missing_entities] are the JSON values
    the dict holds, whatever their type ([null] is [Some VNone]);
    [response] is read as text.  Booleans stand for the truth value of
    the JSON field. *)

Record Turn := mkTurn {
  t_action_type : option string;
  t_intent : option string;
  t_entities : option Value;
  t_missing_entities : option Value;
  t_response : option string;
  t_needs_confirmation : option bool;
  t_ready_to_execute : option bool;
  t_correction_detected : option bool
}.

(** [llm_response.get("entities", {})] *)
Definition turn_entities (t : Turn) : Value := default (VDict []) (t_entities t).

(** The dict [llm_response.get("entities", {})] is, when it is one *)
Definition turn_dict (t : Turn) : option (gmap string Value) :=
  match turn_entities t with
  | VDict l => Some (dict_of_items l)
  | _ => None
  end.

Definition opt_str_eqb (o : option string) (s : string) : bool :=
  match o with Some x => String.eqb x s | None => false end.

(** [d.get(k)] on a JSON value [d]: only a dict has [get]. *)
Definition value_get (d : Value) (k : string) : PyResult Value :=
  match d with
  | VDict l => POk (default VNone (dict_of_items l !! k))
  | _ => PRaise (no_attr d "get")
  end.

(** [x in v] for a string [x]: an element of a list, a substring of a
    string, a key of a dict. *)
Definition py_in (x : string) (v : Value) : PyResult bool :=
  match v with
  | VList l => POk (existsb (fun y => match y with VStr z => String.eqb z x | _ => false end) l)
  | VStr s => POk (str_contains s x)
  | VDict l => POk (existsb (fun kv => String.eqb kv.1 x) l)
  | _ => PRaise ("argument of type '" ++ py_type_name v ++ "' is not iterable")
  end.

(** [self.state["entities"][k] = v] *)
Definition entities_setitem (e : Entities) (k : string) (v : Value) : PyResult Entities :=
  match e with
  | EDict m o => POk (EDict (<[k := v]> m) o)
  | EOther (VList _) => PRaise "list indices must be integers or slices, not str"
  | EOther w => PRaise ("'" ++ py_type_name w ++ "' object does not support item assignment")
  end.

(** [dict.update]: keys of [upd] overwrite, the others are kept *)
Definition py_dict_update (old upd : gmap string Value) : gmap string Value :=
  upd ∪ old.

(** Equality of two keys that are numbers, booleans or [None]
    ([True == 1], [False == 0]) *)
Definition key_int (k : Value) : option Z :=
  match k with
  | VBool b => Some (if b then 1%Z else 0%Z)
  | VInt z => Some z
  | _ => None
  end.

Definition key_eqb (a b : Value) : bool :=
  match a, b with
  | VNone, VNone => true
  | _, _ =>
      match key_int a, key_int b with
      | Some x, Some y => Z.eqb x y
      | _, _ => false
      end
  end.

(** [d[k] = v] for a key that is not a string: an equal key keeps its
    place (and its own object) and takes the value, a new one goes
    last. *)
Fixpoint other_insert (k v : Value) (o : list (Value * Value)) : list (Value * Value) :=
  match o with
  | [] => [(k, v)]
  | (k', v') :: r => if key_eqb k k' then (k', v) :: r else (k', v') :: other_insert k v r
  end.

(** The [i]-th element of the sequence given to [dict.update], unpacked
    into a pair as Python does *)
Definition update_pair (i : nat) (x : Value) : PyResult (Value * Value) :=
  let bad_length (n : nat) : PyResult (Value * Value) :=
    PRaise ("dictionary update sequence element #" ++ pretty i ++ " has length "
            ++ pretty n ++ "; 2 is required") in
  match x with
  | VStr s =>
      match list_ascii_of_string s with
      | [a; b] => POk (VStr (String a EmptyString), VStr (String b EmptyString))
      | cs => bad_length (length cs)
      end
  | VList [k; v] => POk (k, v)
  | VList l => bad_length (length l)
  | VDict [(k1, _); (k2, _)] => POk (VStr k1, VStr k2)
  | VDict l => bad_length (length l)
  | _ => PRaise ("cannot convert dictionary update sequence element #" ++ pretty i
                 ++ " to a sequence")
  end.

(** [d[k] = v] in the dict [EDict m o] *)
Definition dict_setitem (m : gmap string Value) (o : list (Value * Value)) (k v : Value)
    : PyResult (gmap string Value * list (Value * Value)) :=
  match k with
  | VStr ks => POk (<[ks := v]> m, o)
  | VList _ => PRaise "unhashable type: 'list'"
  | VDict _ => PRaise "unhashable type: 'dict'"
  | _ => POk (m, other_insert k v o)
  end.

(** [dict.update] with a sequence: the pairs are stored one by one, and
    those before a faulty element stay stored. *)
Fixpoint update_seq (i : nat) (m : gmap string Value) (o : list (Value * Value))
    (xs : list Value) : gmap string Value * list (Value * Value) * option string :=
  match xs with
  | [] => (m, o, None)
  | x :: r =>
      match update_pair i x with
      | PRaise err => (m, o, Some err)
      | POk (k, v) =>
          match dict_setitem m o k v with
          | PRaise err => (m, o, Some err)
          | POk (m', o') => update_seq (S i) m' o' r
          end
      end
  end.

(** [self.state["entities"].update(x)]: the entities left, and the
    exception if it raised. *)
Definition entities_update (e : Entities) (x : Value) : Entities * option string :=
  match e with
  | EOther w => (e, Some (no_attr w "update"))
  | EDict m o =>
      match x with
      | VDict l => (EDict (py_dict_update m (dict_of_items l)) o, None)
      | VList xs => let '(m', o', err) := update_seq 0 m o xs in (EDict m' o', err)
      | VStr s =>
          let '(m', o', err) :=
            update_seq 0 m o (List.map (fun c => VStr (String c EmptyString))
                                (list_ascii_of_string s)) in
          (EDict m' o', err)
      | _ => (e, Some ("'" ++ py_type_name x ++ "' object is not iterable"))
      end
  end.

(** [_update_state_from_llm_response]: the state it leaves, and whether
    it returned or raised.  [user_input] is a parameter of the Python
    method as well. *)
Definition update_state_from_llm_response
    (s : State) (t : Turn) (user_input : string) : State * PyResult unit :=
  let action_type := default "chitchat" (t_action_type t) in
  if String.eqb action_type "new_intent" then
    let new_intent := t_intent t in
    let missing_entities := default (VList []) (t_missing_entities t) in
    let asks_addresses :=
      if opt_str_eqb new_intent "send_email" && opt_str_eqb (intent s) "schedule_meeting"
      then py_in "email_addresses" missing_entities
      else POk false in
    match asks_addresses with
    | PRaise err => (s, PRaise err)
    | POk true =>
        (set_awaiting_email_addresses true (set_awaiting_confirmation false s), POk tt)
    | POk false =>
        if opt_str_eqb new_intent "send_email" && awaiting_email_addresses s then
          match value_get (turn_entities t) "recipient" with
          | PRaise err => (s, PRaise err)
          | POk r =>
              if truthy r then
                match entities_setitem (entities_obj s) "recipient" r with
                | PRaise err => (s, PRaise err)
                | POk e' =>
                    (set_awaiting_confirmation (default true (t_needs_confirmation t))
                       (set_awaiting_email_addresses false
                          (set_intent (Some "send_email") (set_entities e' s))), POk tt)
                end
              else (s, POk tt)
          end
        else
          (set_session_active true
             (set_awaiting_confirmation (default false (t_needs_confirmation t))
                (set_entities (entities_of_value (turn_entities t))
                   (set_intent new_intent s))), POk tt)
    end
  else if String.eqb action_type "correction" then
    if default false (t_correction_detected t) then
      match entities_update (entities_obj s) (turn_entities t) with
      | (e', Some err) => (set_entities e' s, PRaise err)
      | (e', None) =>
          (set_awaiting_confirmation (default true (t_needs_confirmation t))
             (set_entities e' s), POk tt)
      end
    else (s, POk tt)
  else if String.eqb action_type "confirmation" then
    (if default false (t_ready_to_execute t) then set_awaiting_confirmation false s
     else reset_state, POk tt)
  else if String.eqb action_type "cancellation" then (reset_state, POk tt)
  else if String.eqb action_type "email_address_request" then
    (set_awaiting_confirmation false (set_awaiting_email_addresses true s), POk tt)
  else if String.eqb action_type "chitchat" then
    (if session_active s then s else set_intent (Some "chitchat") s, POk tt)
  else (s, POk tt).

(* ------------------------------------------------------------------ *)
(** ** Completeness and readiness

    Each check reads the entities with [entities.get]: on entities that
    are not a dict it raises. *)

Definition meeting_fields : list string := ["title"; "date"; "time"].

(** [entities.get] on the entities of the state *)
Definition entities_for_get (e : Entities) : PyResult (gmap string Value) :=
  match e with
  | EDict m _ => POk m
  | EOther v => PRaise (no_attr v "get")
  end.

(** [_has_required_entities] *)
Definition has_required_entities (s : State) : PyResult bool :=
  if opt_str_eqb (intent s) "schedule_meeting" then
    match entities_for_get (entities_obj s) with
    | PRaise err => PRaise err
    | POk e => POk (forallb (field_filled e) meeting_fields)
    end
  else if opt_str_eqb (intent s) "send_email" then
    match entities_for_get (entities_obj s) with
    | PRaise err => PRaise err
    | POk e =>
        POk (field_filled e "recipient" && (field_filled e "body" || field_filled e "subject"))
    end
  else POk true.

(** [_get_missing_entities] *)
Definition get_missing_entities (s : State) : PyResult (list string) :=
  if opt_str_eqb (intent s) "schedule_meeting" then
    match entities_for_get (entities_obj s) with
    | PRaise err => PRaise err
    | POk e => POk (List.filter (fun f => negb (field_filled e f)) meeting_fields)
    end
  else if opt_str_eqb (intent s) "send_email" then
    match entities_for_get (entities_obj s) with
    | PRaise err => PRaise err
    | POk e =>
        POk ((if field_filled e "recipient" then [] else ["recipient"])
             ++ (if field_filled e "body" || field_filled e "subject" then []
                 else ["body_or_subject"]))%list
    end
  else POk [].

(** [is_ready_for_execution], its result read as a truth value *)
Definition is_ready_for_execution (s : State) : PyResult bool :=
  if negb (session_active s
           && (opt_str_eqb (intent s) "schedule_meeting"
               || opt_str_eqb (intent s) "send_email"))
  then POk false
  else
    match entities_for_get (entities_obj s) with
    | PRaise err => PRaise err
    | POk e =>
        if opt_str_eqb (intent s) "schedule_meeting" then
          POk (forallb (field_filled e) meeting_fields && negb (awaiting_confirmation s))
        else if opt_str_eqb (intent s) "send_email" then
          POk (field_filled e "recipient" && (field_filled e "body" || field_filled e "subject")
               && negb (awaiting_confirmation s))
        else POk false
    end.

(* ------------------------------------------------------------------ *)
(** ** Execution ([get_action_for_execution], [_handle_action_execution])

    The outbox (file system), the clock, [id(self)] and the summary
    helper are outside the state machine: they are given by an
    environment for the call.  [env_save] is what
    [save_action_to_outbox(action_data, outbox_dir)] returns at that
    call, so a write may fail once and succeed later. *)

(** The action dict.  Its entities are the string-keyed ones: the
    savers read nothing else. *)
Record Action := mkAction {
  a_type : option string;
  a_entities : gmap string Value;
  a_timestamp : string;
  a_conversation_id : string
}.

(** The [success] / [filename] / [filepath] / [error] keys of the dict
    returned by [save_action_to_outbox]. *)
Inductive SaveResult :=
  | SaveOk (filename filepath : string)
  | SaveErr (error : string).

Record Env := mkEnv {
  env_now : string;
  env_conversation_id : string;
  env_save : Action -> SaveResult;
  env_summary : Action -> string
}.

(** The dict returned by [_handle_action_execution] when it is not
    [None]: ["success": True] with the file, or ["success": False] with
    the error.  The ["message"] key, a function of these, is left out. *)
Inductive ExecResult :=
  | ExecSaved (filename filepath summary : string)
  | ExecFailed (error : string).

Definition get_action_for_execution (env : Env) (s : State) : PyResult (option Action) :=
  match is_ready_for_execution s with
  | PRaise err => PRaise err
  | POk false => POk None
  | POk true =>
      POk (Some {| a_type := intent s; a_entities := entities s;
                   a_timestamp := env_now env;
                   a_conversation_id := env_conversation_id env |})
  end.

(** [_reset_session_after_execution]: zero state, history and the last
    saved action carried over. *)
Definition reset_session_after_execution (s : State) : State :=
  set_last_saved_action (last_saved_action s)
    (set_history (history s) reset_state).

(** [_handle_action_execution]: the readiness check is outside its
    [try], so an exception there propagates; one inside the [try]
    becomes a failed result. *)
Definition handle_action_execution (env : Env) (s : State)
    : State * PyResult (option ExecResult) :=
  match is_ready_for_execution s with
  | PRaise err => (s, PRaise err)
  | POk false => (s, POk None)
  | POk true =>
      match get_action_for_execution env s with
      | PRaise err => (s, POk (Some (ExecFailed err)))
      | POk None => (s, POk None)
      | POk (Some a) =>
          match env_save env a with
          | SaveOk fn fp =>
              let saved := {| sa_filename := fn; sa_filepath := fp;
                              sa_action_type := a_type a;
                              sa_summary := env_summary env a;
                              sa_saved_at := env_now env |} in
              (reset_session_after_execution
                 (set_last_saved_action (Some saved) s),
               POk (Some (ExecSaved fn fp (env_summary env a))))
          | SaveErr err => (s, POk (Some (ExecFailed err)))
          end
      end
  end.

(* ------------------------------------------------------------------ *)
(** ** History and [process_message] *)

(** [history.append(entry)], then [history[-max_history:]] when the
    length went over [max_history]. *)
Definition history_push (h : list HistoryEntry) (e : HistoryEntry) : list HistoryEntry :=
  let h' := (h ++ [e])%list in
  if max_history <? length h' then drop (length h' - max_history) h' else h'.

(** [_add_to_history]; the snapshot is a copy of the current entities. *)
Definition add_to_history (s : State) (user_in bot : string) (now : string) : State :=
  set_history (history_push (history s) (mkEntry user_in bot now (entities_obj s))) s.

(** What [self.llm_client.process_message(user_input, context)] does at
    the call: raise, or return a dict. *)
Inductive ClassifierOutcome :=
  | Raised (error : string)
  | Returned (t : Turn).

(** The dict [process_message] returns: the classifier's dict, with the
    ["execution_result"] key when execution ran, or the fallback dict of
    the [except] branch. *)
Inductive Reply :=
  | RTurn (t : Turn) (execution_result : option ExecResult)
  | RError (error : string).

Definition manager_error_text : string :=
  "Sorry, I encountered an error. Could you try again?".

(** the ["response"] key of the reply (a returned dict has it: without
    it, [process_message] takes its [except] branch) *)
Definition reply_text (r : Reply) : string :=
  match r with
  | RTurn t _ => default "" (t_response t)
  | RError _ => manager_error_text
  end.

(** the ["action_type"] key of the reply ([None] when absent) *)
Definition reply_action_type (r : Reply) : option string :=
  match r with
  | RTurn t _ => t_action_type t
  | RError _ => Some "error"
  end.

Definition reply_execution (r : Reply) : option ExecResult :=
  match r with
  | RTurn _ ex => ex
  | RError _ => None
  end.

(** [ConversationManager.process_message].  An exception of the
    classifier, of the transition, of the readiness check or of
    [llm_response["response"]] is caught by the [except] branch, which
    keeps the state as the [try] block left it. *)
Definition process_message (env : Env) (classify : ClassifierOutcome)
    (s : State) (user_in : string) : State * Reply :=
  let fallback (s' : State) (err : string) : State * Reply :=
    (add_to_history s' user_in manager_error_text (env_now env), RError err) in
  match classify with
  | Raised err => fallback s err
  | Returned t =>
      match update_state_from_llm_response s t user_in with
      | (s1, PRaise err) => fallback s1 err
      | (s1, POk _) =>
          match handle_action_execution env s1 with
          | (s2, PRaise err) => fallback s2 err
          | (s2, POk ex) =>
              match t_response t with
              | Some r => (add_to_history s2 user_in r (env_now env), RTurn t ex)
              | None => fallback s2 "'response'"
              end
          end
      end
  end.

(** A run of turns: each with its environment, classifier outcome and
    user text. *)
Fixpoint run (s : State) (turns : list (Env * ClassifierOutcome * string)) : State :=
  match turns with
  | [] => s
  | (env, o, u) :: rest => run (fst (process_message env o s u)) rest
  end.

(* ------------------------------------------------------------------ *)
(** ** [components/llm_client.py]: the dicts it hands to the manager *)

(** The fallback of [_parse_response] on a [JSONDecodeError] *)
Definition parse_error_turn : Turn :=
  {| t_action_type := Some "error"; t_intent := Some "chitchat";
     t_entities := Some (VDict []); t_missing_entities := None;
     t_response := Some "I had trouble understanding that. Could you rephrase?";
     t_needs_confirmation := Some false; t_ready_to_execute := Some false;
     t_correction_detected := Some false |}.

(** The fallback of [LLMClient.process_message] on any other exception *)
Definition client_error_turn : Turn :=
  {| t_action_type := Some "error"; t_intent := Some "chitchat";
     t_entities := Some (VDict []); t_missing_entities := None;
     t_response := Some "Sorry, I had trouble processing that. Could you try again?";
     t_needs_confirmation := Some false; t_ready_to_execute := Some false;
     t_correction_detected := None |}.

(** [LLMClient.process_message] after [_parse_response] succeeded: the
    per-intent fields are checked with [entities.get], and missing ones
    force [ready_to_execute = False].  When the entities are not a dict,
    [get] raises and the client returns its error dict. *)
Definition client_required_fields (i : option string) : list string :=
  if opt_str_eqb i "schedule_meeting" then ["date"; "time"; "participants"]
  else if opt_str_eqb i "send_email" then ["recipient"; "subject"; "body"]
  else [].

Definition client_postprocess (t : Turn) : Turn :=
  match client_required_fields (t_intent t) with
  | [] => t
  | fields =>
      match turn_entities t with
      | VDict l =>
          let e := dict_of_items l in
          match List.filter (fun f => negb (get_truthy e f)) fields with
          | [] => t
          | missing =>
              {| t_action_type := t_action_type t; t_intent := t_intent t;
                 t_entities := t_entities t;
                 t_missing_entities := Some (VList (List.map VStr missing));
                 t_response := t_response t;
                 t_needs_confirmation := t_needs_confirmation t;
                 t_ready_to_execute := Some false;
                 t_correction_detected := t_correction_detected t |}
          end
      | _ => client_error_turn
      end
  end.

(** The outcomes the client can produce: its exception apart, the dict
    [LLMClient.process_message] returns is one of its two fallbacks or a
    parsed dict after post-processing. *)
Definition client_outcome (o : ClassifierOutcome) : Prop :=
  match o with
  | Raised _ => True
  | Returned t =>
      t = parse_error_turn \/ t = client_error_turn \/ exists t0, t = client_postprocess t0
  end.

(** The shape of the client's dicts: a meeting or email intent comes
    with entities that are a dict. *)
Definition client_turn_shape (t : Turn) : bool :=
  match client_required_fields (t_intent t) with
  | [] => true
  | _ => match turn_entities t with VDict _ => true | _ => false end
  end.

(** Its counterpart on the state: under a meeting or email intent the
    entities are a dict. *)
Definition task_entities_dict (s : State) : bool :=
  if opt_str_eqb (intent s) "schedule_meeting" || opt_str_eqb (intent s) "send_email"
  then match entities_obj s with EDict _ _ => true | EOther _ => false end
  else true.

(* ------------------------------------------------------------------ *)
(** ** Concrete turns, states and environments *)

Definition ents (l : list (string * Value)) : gmap string Value := list_to_map l.

Definition mk_turn (action i : string) (e : list (string * Value)) (reply : string)
    (needs ready corr : option bool) : Turn :=
  {| t_action_type := Some action; t_intent := Some i;
     t_entities := Some (VDict e); t_missing_entities := None;
     t_response := Some reply; t_needs_confirmation := needs;
     t_ready_to_execute := ready; t_correction_detected := corr |}.

Definition sara_meeting : list (string * Value) :=
  [("title", VStr "meeting with Sara"); ("date", VStr "tomorrow");
   ("time", VStr "3pm")].

(** Scenario A: "Book meeting with Sara tomorrow at 3pm", classified as
    a new schedule_meeting intent with title, date and time, passed
    through the client's post-processing. *)
Definition turn_book_meeting : Turn :=
  client_postprocess
    (mk_turn "new_intent" "schedule_meeting" sara_meeting
       "Booking a meeting with Sara tomorrow at 3pm." None None None).

Definition input_book_meeting : string := "Book meeting with Sara tomorrow at 3pm".

(** An email whose recipient is a bare name *)
Definition turn_email_bob : Turn :=
  client_postprocess
    (mk_turn "new_intent" "send_email"
       [("recipient", VStr "bob"); ("body", VStr "running late")]
       "Sending it." None None None).

(** The classifier reports the user's agreement. *)
Definition turn_confirm_ready : Turn :=
  {| t_action_type := Some "confirmation"; t_intent := None;
     t_entities := None; t_missing_entities := None;
     t_response := Some "Perfect! I'll book that meeting now.";
     t_needs_confirmation := Some false; t_ready_to_execute := Some true;
     t_correction_detected := None |}.

(** A correction without the [correction_detected] key *)
Definition turn_correct_time : Turn :=
  {| t_action_type := Some "correction"; t_intent := Some "schedule_meeting";
     t_entities := Some (VDict [("time", VStr "4pm")]);
     t_missing_entities := None;
     t_response := Some "Updated to 4pm. Should I proceed?";
     t_needs_confirmation := Some true; t_ready_to_execute := Some false;
     t_correction_detected := None |}.

(** A correction flagged as such *)
Definition turn_correct_time_flagged : Turn :=
  {| t_action_type := Some "correction"; t_intent := Some "schedule_meeting";
     t_entities := Some (VDict [("time", VStr "4pm")]);
     t_missing_entities := None;
     t_response := Some "Updated to 4pm. Should I proceed?";
     t_needs_confirmation := Some true; t_ready_to_execute := Some false;
     t_correction_detected := Some true |}.

(** The meeting, complete and waiting for the user's answer *)
Definition state_pending : State :=
  {| intent := Some "schedule_meeting"; entities_obj := EDict (ents sara_meeting) [];
     awaiting_confirmation := true; awaiting_email_addresses := false;
     history := []; session_active := true; last_saved_action := None |}.

Definition env_saved : Env :=
  {| env_now := "2026-10-16T09:00:00"; env_conversation_id := "conv_1";
     env_save := fun _ => SaveOk "meeting_x.json" "outbox/meeting_x.json";
     env_summary := fun _ => "meeting with Sara" |}.

Definition env_write_fails : Env :=
  {| env_now := "2026-10-16T09:00:00"; env_conversation_id := "conv_1";
     env_save := fun _ => SaveErr "Failed to save meeting: disk full";
     env_summary := fun _ => "meeting with Sara" |}.

(** After scenario A with a failing write: ready, nothing saved *)
Definition state_after_failed_save : State :=
  fst (process_message env_write_fails (Returned turn_book_meeting)
         reset_state input_book_meeting).

(** The classifier switches to an email while a meeting is under way,
    with [missing_entities] set to [null]. *)
Definition turn_email_null_missing : Turn :=
  {| t_action_type := Some "new_intent"; t_intent := Some "send_email";
     t_entities := Some (VDict [("recipient", VStr "sara@example.com");
                                ("subject", VStr "Agenda"); ("body", VStr "See you")]);
     t_missing_entities := Some VNone;
     t_response := Some "Sending the agenda.";
     t_needs_confirmation := None; t_ready_to_execute := None;
     t_correction_detected := None |}.

(** A meeting with title and date but no time yet, not waiting for
    anything *)
Definition state_meeting_no_time : State :=
  {| intent := Some "schedule_meeting";
     entities_obj := EDict (ents [("title", VStr "sync"); ("date", VStr "friday")]) [];
     awaiting_confirmation := false; awaiting_email_addresses := false;
     history := []; session_active := true; last_saved_action := None |}.

(** A flagged correction whose entities are a list of pairs, the second
    of which is malformed *)
Definition turn_correct_pairs : Turn :=
  {| t_action_type := Some "correction"; t_intent := Some "schedule_meeting";
     t_entities := Some (VList [VList [VStr "time"; VStr "3pm"]; VInt 5]);
     t_missing_entities := None;
     t_response := Some "Updated.";
     t_needs_confirmation := Some true; t_ready_to_execute := None;
     t_correction_detected := Some true |}.

(* ------------------------------------------------------------------ *)
(** ** [utils/helpers.py]: validation and saving *)

(** [validate_meeting_data]: [(is_valid, missing)] *)
Definition validate_meeting_data (e : gmap string Value) : bool * list string :=
  let required := [("title", "Meeting title"); ("date", "Meeting date");
                   ("time", "Meeting time")] in
  let missing :=
    (List.map snd (List.filter (fun fd => negb (field_filled e (fst fd))) required)
     ++ (if get_truthy e "participants" then [] else ["Participants (recommended)"]))%list in
  (match missing with
   | [] => true
   | [m] => str_contains (py_lower m) "recommended"
   | _ => false
   end, missing).

(** [validate_email_data]: [(is_valid, missing)] *)
Definition validate_email_data (e : gmap string Value) : bool * list string :=
  let recipient := default VNone (e !! "recipient") in
  let m1 := if negb (truthy recipient) then ["Recipient email address"]
            else if negb (validate_email_addresses recipient)
            then ["Valid email addresses (must contain @domain.com)"]
            else [] in
  let has_subject := field_filled e "subject" in
  let has_body := field_filled e "body" in
  let m2 := if negb has_subject && negb has_body then ["Email content (subject or body)"]
            else if negb has_subject then ["Subject (recommended)"]
            else if negb has_body then ["Body/message (recommended)"]
            else [] in
  (truthy recipient && validate_email_addresses recipient && (has_subject || has_body),
   (m1 ++ m2)%list).


(** [entities.get(k, dflt).strip()] *)
Definition get_strip (e : gmap string Value) (k dflt : string) : PyResult string :=
  match e !! k with
  | None => POk (py_strip dflt)
  | Some (VStr s) => POk (py_strip s)
  | Some v => PRaise ("'" ++ py_type_name v ++ "' object has no attribute 'strip'")
  end.

(** [x.strip() if entities.get(k) else None] *)
Definition get_strip_if_set (e : gmap string Value) (k : string) : PyResult unit :=
  if get_truthy e k then
    match get_strip e k "" with POk _ => POk tt | PRaise m => PRaise m end
  else POk tt.

(** [re.sub(r'[^\w\-_\.]', '_', name)[:20]] *)
Definition safe_char (c : ascii) : ascii :=
  if is_word c || Ascii.eqb c "-" || Ascii.eqb c "_" || Ascii.eqb c "."
  then c else "_"%char.

Fixpoint str_map (f : ascii -> ascii) (s : string) : string :=
  match s with
  | EmptyString => EmptyString
  | String c r => String (f c) (str_map f r)
  end.

Definition safe_name (name : string) : string :=
  substring 0 20 (str_map safe_char name).

(** [posixpath.join(a, b)] *)
Definition os_path_join (a b : string) : string :=
  if str_prefix "/" b then b
  else if String.eqb a "" then b
  else if String.eqb (substring (String.length a - 1) 1 a) "/" then a ++ b
  else a ++ "/" ++ b.

(** The outbox: its directory, and what the file system does when
    [ensure_outbox_exists] runs and when the file is opened and written. *)
Inductive IOOutcome :=
  | IOOk
  | IOFails (msg : string).

Record Outbox := mkOutbox {
  ob_dir : string;
  ob_mkdir : IOOutcome;
  ob_write : IOOutcome
}.

(** [save_meeting_action]; [stamp] is [strftime('%Y%m%d_%H%M%S')].  The
    file's contents are not modelled, only the outcome. *)
Definition save_meeting_action (e : gmap string Value) (ob : Outbox) (stamp : string)
    : SaveResult :=
  let fail m := SaveErr ("Failed to save meeting: " ++ m) in
  let (ok, missing) := validate_meeting_data e in
  if negb ok then SaveErr ("Missing required fields: " ++ str_join ", " missing)
  else match ob_mkdir ob with
  | IOFails m => fail m
  | IOOk =>
    match get_strip e "title" "", get_strip e "date" "", get_strip e "time" "",
          get_strip_if_set e "location", get_strip_if_set e "description" with
    | PRaise m, _, _, _, _ | POk _, PRaise m, _, _, _ | POk _, POk _, PRaise m, _, _
    | POk _, POk _, POk _, PRaise m, _ | POk _, POk _, POk _, POk _, PRaise m => fail m
    | POk _, POk _, POk _, POk _, POk _ =>
        let title := match e !! "title" with Some (VStr t) => t | _ => "meeting" end in
        let filename := "meeting_" ++ safe_name title ++ "_" ++ stamp ++ ".json" in
        match ob_write ob with
        | IOFails m => fail m
        | IOOk => SaveOk filename (os_path_join (ob_dir ob) filename)
        end
    end
  end.

(** [save_email_action]; the recipients' formatting (file contents and
    message only) is not modelled. *)
Definition save_email_action (e : gmap string Value) (ob : Outbox) (stamp : string)
    : SaveResult :=
  let fail m := SaveErr ("Failed to save email: " ++ m) in
  let (ok, missing) := validate_email_data e in
  if negb ok then SaveErr ("Missing required fields: " ++ str_join ", " missing)
  else match ob_mkdir ob with
  | IOFails m => fail m
  | IOOk =>
    match get_strip e "subject" "" with
    | PRaise m => fail m
    | POk subj =>
      let subject := if String.eqb subj "" then "Message from Assistant" else subj in
      let body := match get_strip e "body" "" with
                  | POk "" => get_strip e "subject" ""
                  | r => r
                  end in
      match body with
      | PRaise m => fail m
      | POk _ =>
          let filename := "email_" ++ safe_name subject ++ "_" ++ stamp ++ ".json" in
          match ob_write ob with
          | IOFails m => fail m
          | IOOk => SaveOk filename (os_path_join (ob_dir ob) filename)
          end
      end
    end
  end.

(** [save_action_to_outbox] on the manager's (never empty) action dict *)
Definition save_action_to_outbox (a : Action) (ob : Outbox) (stamp : string) : SaveResult :=
  if opt_str_eqb (a_type a) "schedule_meeting" then save_meeting_action (a_entities a) ob stamp
  else if opt_str_eqb (a_type a) "send_email" then save_email_action (a_entities a) ob stamp
  else SaveErr ("Unknown action type: " ++ default "None" (a_type a)).

(** The environment of a call whose outbox is [ob]. *)
Definition outbox_env (ob : Outbox) (stamp now conv : string) (summary : Action -> string)
    : Env :=
  {| env_now := now; env_conversation_id := conv;
     env_save := fun a => save_action_to_outbox a ob stamp;
     env_summary := summary |}.

(* ------------------------------------------------------------------ *)
(** ** [get_state_display], as the list of its parts

    The rendering of each part (emojis, [str.title], the joining of the
    missing fields) is not modelled; the parts and their order are, and
    the exceptions raised while building them.  The entity lines are kept
    as the map of the shown (truthy) entities. *)

Inductive StatusLine :=
  | StAwaiting
  | StWaitingEmails
  | StNeedInfo (missing : list string)
  | StReady
  | StProcessing.

Inductive DisplayPart :=
  | PIntent (i : string)
  | PDetails (shown : gmap string Value)
  | PStatus (st : StatusLine)
  | PLastSaved (summary : string)
  | PExchanges (n : nat).

Inductive Display :=
  | DIdle
  | DParts (parts : list DisplayPart).

Definition opt_str_truthy (o : option string) : option string :=
  match o with
  | Some x => if String.eqb x "" then None else Some x
  | None => None
  end.

(** [if self.state["entities"]:] and its loop: entities that are not a
    dict raise on [.items()] when truthy; in a dict, [key.title()] raises
    on the first key that is not a string and has a truthy value. *)
Definition details_part (e : Entities) : PyResult (list DisplayPart) :=
  match e with
  | EOther v => if truthy v then PRaise (no_attr v "items") else POk []
  | EDict m o =>
      if Nat.eqb (size m + length o) 0 then POk []
      else match List.find (fun kv => truthy kv.2) o with
           | Some (k, _) => PRaise (no_attr k "title")
           | None => POk [PDetails (filter (fun kv => truthy kv.2 = true) m)]
           end
  end.

(** The [if/elif] chain of the status line *)
Definition status_line (s : State) : PyResult (option StatusLine) :=
  if awaiting_confirmation s then POk (Some StAwaiting)
  else if awaiting_email_addresses s then POk (Some StWaitingEmails)
  else
    match has_required_entities s with
    | PRaise err => PRaise err
    | POk false =>
        match get_missing_entities s with
        | PRaise err => PRaise err
        | POk m => POk (Some (StNeedInfo m))
        end
    | POk true =>
        if session_active s then
          match is_ready_for_execution s with
          | PRaise err => PRaise err
          | POk b => POk (Some (if b then StReady else StProcessing))
          end
        else POk None
    end.

Definition get_state_display (s : State) : PyResult Display :=
  if negb (session_active s) && negb (bool_decide (is_Some (opt_str_truthy (intent s))))
  then POk DIdle
  else
    match details_part (entities_obj s) with
    | PRaise err => PRaise err
    | POk det =>
        match status_line s with
        | PRaise err => PRaise err
        | POk st =>
            POk (DParts
              ((match opt_str_truthy (intent s) with Some i => [PIntent i] | None => [] end)
               ++ det
               ++ (match st with Some l => [PStatus l] | None => [] end)
               ++ (match last_saved_action s with
                   | Some a => [PLastSaved (sa_summary a)] | None => [] end)
               ++ (match history s with [] => [] | h => [PExchanges (length h)] end))%list)
        end
    end.

(* ------------------------------------------------------------------ *)
(** ** [_build_context_for_llm] *)

Record Context := mkContext {
  c_intent : option string;
  c_entities : Entities;
  c_awaiting_confirmation : bool;
  c_awaiting_email_addresses : bool;
  c_session_active : bool;
  c_history : list HistoryEntry
}.

(** [h[-5:]] *)
Definition py_last (k : nat) {A} (h : list A) : list A := drop (length h - k) h.

Definition build_context_for_llm (s : State) : Context :=
  {| c_intent := intent s; c_entities := entities_obj s;
     c_awaiting_confirmation := awaiting_confirmation s;
     c_awaiting_email_addresses := awaiting_email_addresses s;
     c_session_active := session_active s;
     c_history := match history s with [] => [] | h => py_last 5 h end |}.

(* ------------------------------------------------------------------ *)
(** ** [main.py]: [process_message] of the UI

    The manager of the session is the state [s]; the chat history of the
    UI is a list of [[message, bot_response]] pairs.  The bot text is
    reduced to the manager's reply. *)

Definition main_process_message (env : Env) (classify : ClassifierOutcome)
    (s : State) (chat : list (string * string)) (message : string)
    : State * list (string * string) :=
  if String.eqb (py_strip message) "" then (s, chat)
  else
    let (s', r) := process_message env classify s (py_strip message) in
    (s', (chat ++ [(message, reply_text r)])%list).

(* ------------------------------------------------------------------ *)
(** ** [_parse_response]: the cleaning passes before [json.loads] *)

Definition dquote : ascii := "034"%char.
Definition squote : ascii := "039"%char.
Definition backslash : ascii := "092"%char.
Definition slash : ascii := "/"%char.

(** The [for i, char in enumerate(line)] scan: the index of the first
    [//] outside quotes, if any. *)
Fixpoint find_comment (i : nat) (prev : option ascii) (in_string : bool)
    (quote_char : option ascii) (cs : list ascii) : option nat :=
  match cs with
  | [] => None
  | c :: r =>
      if (Ascii.eqb c dquote || Ascii.eqb c squote)
         && match prev with None => true | Some p => negb (Ascii.eqb p backslash) end
      then
        if negb in_string then find_comment (S i) (Some c) true (Some c) r
        else if match quote_char with Some q => Ascii.eqb c q | None => false end
        then find_comment (S i) (Some c) false None r
        else find_comment (S i) (Some c) in_string quote_char r
      else if Ascii.eqb c slash
              && match r with d :: _ => Ascii.eqb d slash | [] => false end
              && negb in_string
      then Some i
      else find_comment (S i) (Some c) in_string quote_char r
  end.

Fixpoint has_double_slash (cs : list ascii) : bool :=
  match cs with
  | c :: ((d :: _) as r) => (Ascii.eqb c slash && Ascii.eqb d slash) || has_double_slash r
  | _ => false
  end.

(** The body of the loop on one line *)
Definition strip_line_comment (line : list ascii) : list ascii :=
  if has_double_slash line then
    match find_comment 0 None false None line with
    | Some i => rstrip_list (take i line)
    | None => line
    end
  else line.

(** [s.split('\n')] *)
Fixpoint split_lines_acc (cur : list ascii) (cs : list ascii) : list (list ascii) :=
  match cs with
  | [] => [rev cur]
  | c :: r =>
      if Ascii.eqb c "010"%char then rev cur :: split_lines_acc [] r
      else split_lines_acc (c :: cur) r
  end.

Definition split_lines (cs : list ascii) : list (list ascii) := split_lines_acc [] cs.

Fixpoint join_lines (ls : list (list ascii)) : list ascii :=
  match ls with
  | [] => []
  | [l] => l
  | l :: r => (l ++ "010"%char :: join_lines r)%list
  end.

Definition remove_comments (cs : list ascii) : list ascii :=
  join_lines (List.map strip_line_comment (split_lines cs)).

(** The match of [(\s*[}\]])] right after a comma: the greedy [\s*] and
    the closing bracket, with the rest of the text. *)
Fixpoint close_after_spaces (cs : list ascii) : option (list ascii * list ascii) :=
  match cs with
  | c :: r =>
      if is_py_space c then
        match close_after_spaces r with
        | Some (g, rest) => Some (c :: g, rest)
        | None => None
        end
      else if Ascii.eqb c "}" || Ascii.eqb c "]" then Some ([c], r)
      else None
  | [] => None
  end.

(** [re.sub(r',(\s*[}\]])', r'\1', text)]: left to right, each match
    replaced by its group and the search resumed after it. *)
Fixpoint remove_trailing_commas_fuel (fuel : nat) (cs : list ascii) : list ascii :=
  match fuel with
  | 0 => cs
  | S f =>
      match cs with
      | [] => []
      | c :: r =>
          if Ascii.eqb c "," then
            match close_after_spaces r with
            | Some (g, rest) => (g ++ remove_trailing_commas_fuel f rest)%list
            | None => c :: remove_trailing_commas_fuel f r
            end
          else c :: remove_trailing_commas_fuel f r
      end
  end.

Definition remove_trailing_commas (cs : list ascii) : list ascii :=
  remove_trailing_commas_fuel (length cs) cs.


(* ------------------------------------------------------------------ *)
(** ** [get_outbox_stats] over [list_saved_actions] *)

(** What [list_saved_actions] finds: no outbox directory, the entries
    built for the [.json] files (already sorted), or an exception. *)
Inductive ListResult :=
  | LNoOutbox
  | LListed (files : list Value)
  | LFailed (error : string).

(** The dict [list_saved_actions] returns *)
Definition list_saved_actions_result (r : ListResult) : Value :=
  match r with
  | LNoOutbox =>
      VDict [("success", VBool true); ("actions", VList []);
             ("message", VStr "No actions saved yet")]
  | LListed files =>
      VDict [("success", VBool true); ("actions", VList files);
             ("count", VInt (Z.of_nat (length files)))]
  | LFailed err =>
      VDict [("success", VBool false); ("error", VStr ("Failed to list actions: " ++ err))]
  end.

(** [len(v)] *)
Definition py_len (v : Value) : PyResult nat :=
  match v with
  | VList l => POk (length l)
  | VDict l => POk (length l)
  | VStr s => POk (String.length s)
  | _ => PRaise ("object of type '" ++ py_type_name v ++ "' has no len()")
  end.

(** [for a in v]: the elements of a list, the keys of a dict, the
    characters of a string *)
Definition py_iter (v : Value) : PyResult (list Value) :=
  match v with
  | VList l => POk l
  | VDict l => POk (List.map (fun kv => VStr kv.1) l)
  | VStr s => POk (List.map (fun c => VStr (String c EmptyString)) (list_ascii_of_string s))
  | _ => PRaise ("'" ++ py_type_name v ++ "' object is not iterable")
  end.

(** [v[0]] *)
Definition py_getitem0 (v : Value) : PyResult Value :=
  match v with
  | VList (x :: _) => POk x
  | VList [] => PRaise "list index out of range"
  | VStr (String c _) => POk (VStr (String c EmptyString))
  | VStr EmptyString => PRaise "string index out of range"
  | VDict _ => PRaise "0"
  | _ => PRaise ("'" ++ py_type_name v ++ "' object is not subscriptable")
  end.

Definition is_str (v : Value) (x : string) : bool :=
  match v with VStr y => String.eqb y x | _ => false end.

(** [len([a for a in actions if a.get("type") == ty])] *)
Fixpoint count_type (ty : string) (xs : list Value) : PyResult nat :=
  match xs with
  | [] => POk 0
  | a :: r =>
      match value_get a "type" with
      | PRaise err => PRaise err
      | POk v =>
          match count_type ty r with
          | PRaise err => PRaise err
          | POk n => POk (if is_str v ty then S n else n)
          end
      end
  end.

(** The dict [get_outbox_stats] returns *)
Inductive OutboxStats :=
  | Stats (total meetings emails : nat) (last_saved : Value)
  | StatsError (error : string).

(** [get_outbox_stats] with [actions = list_saved_actions(...)] *)
Definition get_outbox_stats (actions : Value) : OutboxStats :=
  match py_len actions with
  | PRaise err => StatsError err
  | POk total =>
      match py_iter actions with
      | PRaise err => StatsError err
      | POk xs =>
          match count_type "schedule_meeting" xs with
          | PRaise err => StatsError err
          | POk meetings =>
              match count_type "send_email" xs with
              | PRaise err => StatsError err
              | POk emails =>
                  if truthy actions then
                    match py_getitem0 actions with
                    | PRaise err => StatsError err
                    | POk a =>
                        match value_get a "saved_at" with
                        | PRaise err => StatsError err
                        | POk last => Stats total meetings emails last
                        end
                    end
                  else Stats total meetings emails VNone
              end
          end
      end
  end.


(** The same pass, read as the rule its pattern expresses: a comma is
    dropped when the next character other than whitespace closes a list
    or an object.  Compared with [remove_trailing_commas] above. *)
Fixpoint drop_commas_before_close (cs : list ascii) : list ascii :=
  match cs with
  | [] => []
  | c :: r =>
      if Ascii.eqb c "," && bool_decide (is_Some (close_after_spaces r))
      then drop_commas_before_close r
      else c :: drop_commas_before_close r
  end.

(** A turn asking for the addresses of the people named *)
Definition turn_ask_addresses : Turn :=
  {| t_action_type := Some "email_address_request"; t_intent := Some "send_email";
     t_entities := None; t_missing_entities := None;
     t_response := Some "Which addresses should I use?";
     t_needs_confirmation := None; t_ready_to_execute := None;
     t_correction_detected := None |}.

(* ------------------------------------------------------------------ *)
(** ** Basic facts *)

Lemma opt_str_eqb_true (o : option string) (x : string) :
  opt_str_eqb o x = true <-> o = Some x.
Proof.
  destruct o as [y|]; simpl; [|split; discriminate].
  rewrite String.eqb_eq. split; [intros ->; reflexivity | congruence].
Qed.

Lemma opt_str_eqb_false (o : option string) (x : string) :
  opt_str_eqb o x = false <-> o <> Some x.
Proof.
  rewrite <- opt_str_eqb_true. destruct (opt_str_eqb o x); split; congruence.
Qed.

Lemma default_chitchat (o : option string) (x : string) :
  String.eqb (default "chitchat" o) x = true -> x <> "chitchat" -> o = Some x.
Proof.
  destruct o as [y|]; intros H Hx; apply String.eqb_eq in H; simpl in H;
    congruence.
Qed.

Lemma field_filled_empty (k : string) : field_filled ∅ k = false.
Proof. reflexivity. Qed.

Lemma is_ready_set_history (h : list HistoryEntry) (s : State) :
  is_ready_for_execution (set_history h s) = is_ready_for_execution s.
Proof. reflexivity. Qed.

Lemma is_ready_add_to_history (s : State) (u b now : string) :
  is_ready_for_execution (add_to_history s u b now) = is_ready_for_execution s.
Proof. reflexivity. Qed.

Lemma is_ready_reset_state : is_ready_for_execution reset_state = POk false.
Proof. reflexivity. Qed.

Lemma handle_not_ready (env : Env) (s : State) :
  is_ready_for_execution s = POk false -> handle_action_execution env s = (s, POk None).
Proof. intros H. unfold handle_action_execution. rewrite H. reflexivity. Qed.

Lemma handle_raise (env : Env) (s : State) (e : string) :
  is_ready_for_execution s = PRaise e -> handle_action_execution env s = (s, PRaise e).
Proof. intros H. unfold handle_action_execution. rewrite H. reflexivity. Qed.

(** A ready state always yields an action, so execution reaches the
    outbox. *)
Lemma handle_ready (env : Env) (s : State) :
  is_ready_for_execution s = POk true ->
  handle_action_execution env s =
    let a := {| a_type := intent s; a_entities := entities s;
                a_timestamp := env_now env;
                a_conversation_id := env_conversation_id env |} in
    match env_save env a with
    | SaveOk fn fp =>
        (set_last_saved_action
           (Some {| sa_filename := fn; sa_filepath := fp;
                    sa_action_type := intent s;
                    sa_summary := env_summary env a;
                    sa_saved_at := env_now env |})
           (set_history (history s) reset_state),
         POk (Some (ExecSaved fn fp (env_summary env a))))
    | SaveErr err => (s, POk (Some (ExecFailed err)))
    end.
Proof.
  intros H. unfold handle_action_execution, get_action_for_execution.
  rewrite H. simpl. destruct (env_save env _); reflexivity.
Qed.

(** [process_message] on a returned dict, step by step *)
Lemma process_message_returned (env : Env) (t : Turn) (s : State) (u : string) :
  process_message env (Returned t) s u =
    match update_state_from_llm_response s t u with
    | (s1, PRaise err) => (add_to_history s1 u manager_error_text (env_now env), RError err)
    | (s1, POk _) =>
        match handle_action_execution env s1 with
        | (s2, PRaise err) => (add_to_history s2 u manager_error_text (env_now env), RError err)
        | (s2, POk ex) =>
            match t_response t with
            | Some r => (add_to_history s2 u r (env_now env), RTurn t ex)
            | None => (add_to_history s2 u manager_error_text (env_now env), RError "'response'")
            end
        end
    end.
Proof. reflexivity. Qed.

Lemma process_message_raised (env : Env) (e : string) (s : State) (u : string) :
  process_message env (Raised e) s u
  = (add_to_history s u manager_error_text (env_now env), RError e).
Proof. reflexivity. Qed.

(** When the transition raises, the state it leaves is the old one, or
    the old one with the entities a correction partly updated. *)
Lemma update_raise_shape (s : State) (t : Turn) (u : string) (s1 : State) (e : string) :
  update_state_from_llm_response s t u = (s1, PRaise e) ->
  s1 = s \/ (t_action_type t = Some "correction" /\ exists e', s1 = set_entities e' s).
Proof.
  unfold update_state_from_llm_response.
  repeat case_match; intros Hu; inversion Hu; subst; auto.
  right. split; [|eexists; reflexivity].
  apply default_chitchat; [assumption | discriminate].
Qed.

(* ------------------------------------------------------------------ *)
(** ** C1: the execution gate *)

(** C1 (counterexample): from the zero state a single new-intent turn,
    without any confirmation turn, makes [is_ready_for_execution] true,
    and it does so for an email whose recipient ["bob"] fails the email
    shape check [validate_email_addresses]. *)
Lemma C1_gate_open_without_confirmation :
  let s := fst (update_state_from_llm_response reset_state turn_email_bob
                  "Email bob that I am running late") in
  is_ready_for_execution s = POk true
  /\ awaiting_confirmation s = false
  /\ validate_email_addresses (VStr "bob") = false.
Proof. vm_compute. repeat split. Qed.

(** C1 (amended): [is_ready_for_execution] holds exactly when the session
    is active, confirmation is not awaited, and either the intent is
    schedule_meeting with non-blank title, date and time, or it is
    send_email with a non-blank recipient and a non-blank body or
    subject; there is no separate confirmed flag and no email-shape
    check.  And [process_message] reaches the outbox only for a returned
    classifier turn whose transition returns and leaves this gate true. *)
Theorem C1_is_ready_characterisation :
  (forall s : State,
     is_ready_for_execution s = POk true <->
     session_active s = true /\ awaiting_confirmation s = false /\
     ((intent s = Some "schedule_meeting" /\
       field_filled (entities s) "title" = true /\
       field_filled (entities s) "date" = true /\
       field_filled (entities s) "time" = true)
      \/
      (intent s = Some "send_email" /\
       field_filled (entities s) "recipient" = true /\
       (field_filled (entities s) "body" = true \/
        field_filled (entities s) "subject" = true))))
  /\
  (forall (env : Env) (o : ClassifierOutcome) (s : State) (u : string),
     reply_execution (snd (process_message env o s u)) <> None ->
     exists t s1, o = Returned t /\
       update_state_from_llm_response s t u = (s1, POk tt) /\
       is_ready_for_execution s1 = POk true).
Proof.
  split.
  - intros s. unfold is_ready_for_execution, entities.
    destruct (entities_obj s) as [m o|v]; simpl.
    + destruct (opt_str_eqb (intent s) "schedule_meeting") eqn:E1.
      * apply opt_str_eqb_true in E1. rewrite E1. simpl.
        destruct (session_active s), (awaiting_confirmation s),
          (field_filled m "title"), (field_filled m "date"),
          (field_filled m "time"); simpl;
          intuition (try discriminate; try congruence).
      * apply opt_str_eqb_false in E1.
        destruct (opt_str_eqb (intent s) "send_email") eqn:E2.
        -- apply opt_str_eqb_true in E2. rewrite E2. simpl.
           destruct (session_active s), (awaiting_confirmation s),
             (field_filled m "recipient"), (field_filled m "body"),
             (field_filled m "subject"); simpl;
             intuition (try discriminate; try congruence).
        -- apply opt_str_eqb_false in E2.
           rewrite andb_false_r. simpl. split; [discriminate|].
           intros (_ & _ & [[H _]|[H _]]); contradiction.
    + rewrite !field_filled_empty. split.
      * destruct (negb _); discriminate.
      * intros (_ & _ & [(_ & H & _)|(_ & H & _)]); discriminate.
  - intros env o s u. destruct o as [e|t]; [simpl; congruence|].
    rewrite process_message_returned.
    destruct (update_state_from_llm_response s t u) as [s1 [[]|e]] eqn:U;
      [|simpl; congruence].
    destruct (is_ready_for_execution s1) as [[]|e] eqn:R.
    + intros _. exists t, s1. auto.
    + rewrite (handle_not_ready env s1 R). destruct (t_response t); simpl; congruence.
    + rewrite (handle_raise env s1 e R). simpl. congruence.
Qed.

(** Witness of C1: the characterisation at the pending meeting and at
    scenario A's first turn. *)
Lemma C1_is_ready_characterisation_witness :
  is_ready_for_execution state_pending <> POk true
  /\ (exists t s1, Returned turn_book_meeting = Returned t /\
       update_state_from_llm_response reset_state t input_book_meeting = (s1, POk tt) /\
       is_ready_for_execution s1 = POk true).
Proof.
  destruct C1_is_ready_characterisation as [Hiff Hgate]. split.
  - intros R. apply Hiff in R. destruct R as (_ & R & _). discriminate R.
  - apply (Hgate env_saved (Returned turn_book_meeting) reset_state input_book_meeting).
    vm_compute. discriminate.
Defined.

(* ------------------------------------------------------------------ *)
(** ** C2: confirmation turns *)

(** C2 (counterexample): the user answers "no" (a word of the negative
    lexicon) but the classifier reports readiness: the meeting is not
    cancelled, it becomes ready for execution. *)
Lemma C2_no_treated_as_yes :
  let s := fst (update_state_from_llm_response state_pending turn_confirm_ready "no") in
  is_ready_for_execution s = POk true /\ intent s = Some "schedule_meeting".
Proof. vm_compute. split; reflexivity. Qed.

(** C2 (amended): the transition never reads the user's text; on a
    confirmation turn the outcome is decided by the classifier's
    [ready_to_execute] alone: truthy clears [awaiting_confirmation],
    otherwise the whole state is reset. *)
Theorem C2_confirmation_uses_flag_only :
  forall (s : State) (t : Turn) (u1 u2 : string),
    update_state_from_llm_response s t u1 = update_state_from_llm_response s t u2
    /\ (t_action_type t = Some "confirmation" ->
        update_state_from_llm_response s t u1 =
          (if default false (t_ready_to_execute t)
           then set_awaiting_confirmation false s else reset_state, POk tt)).
Proof.
  intros s t u1 u2. split; [reflexivity|].
  intros H. unfold update_state_from_llm_response. rewrite H. reflexivity.
Qed.

Lemma C2_confirmation_uses_flag_only_witness :
  update_state_from_llm_response state_pending turn_confirm_ready "no"
    = update_state_from_llm_response state_pending turn_confirm_ready "yes"
  /\ update_state_from_llm_response state_pending turn_confirm_ready "no"
     = (set_awaiting_confirmation false state_pending, POk tt).
Proof.
  destruct (C2_confirmation_uses_flag_only state_pending turn_confirm_ready "no" "yes")
    as [H1 H2].
  split; [exact H1|]. rewrite (H2 eq_refl). reflexivity.
Defined.

(* ------------------------------------------------------------------ *)
(** ** C3: a pending confirmation blocks execution *)

Lemma client_shape_postprocess (t0 : Turn) : client_turn_shape (client_postprocess t0) = true.
Proof.
  unfold client_postprocess.
  destruct (client_required_fields (t_intent t0)) as [|f fs] eqn:F.
  - unfold client_turn_shape. rewrite F. reflexivity.
  - destruct (turn_entities t0) eqn:E; try reflexivity.
    case_match; unfold client_turn_shape, turn_entities in *; simpl; rewrite F;
      rewrite ?E; reflexivity.
Qed.

Lemma client_outcome_shape (t : Turn) :
  client_outcome (Returned t) -> client_turn_shape t = true.
Proof.
  intros [->|[->|[t0 ->]]]; [reflexivity | reflexivity | apply client_shape_postprocess].
Qed.

Lemma entities_setitem_dict (e : Entities) (k : string) (v : Value) (e' : Entities) :
  entities_setitem e k v = POk e' -> exists m o, e' = EDict m o.
Proof.
  destruct e as [m o|w]; simpl; [intros H; injection H as <-; eauto|].
  destruct w; discriminate.
Qed.

Lemma update_seq_result (i : nat) (m : gmap string Value) (o : list (Value * Value))
    (xs : list Value) :
  exists m' o' err, update_seq i m o xs = (m', o', err).
Proof. destruct (update_seq i m o xs) as [[m' o'] err]. eauto. Qed.

Lemma entities_update_kind (e : Entities) (x : Value) :
  match e with
  | EDict _ _ => exists m o, fst (entities_update e x) = EDict m o
  | EOther _ => fst (entities_update e x) = e
  end.
Proof.
  destruct e as [m o|w]; [|reflexivity].
  destruct x; simpl; eauto;
    [destruct (update_seq 0 m o _) as [[m' o'] err] | destruct (update_seq 0 m o l) as [[m' o'] err]];
    simpl; eauto.
Qed.

Lemma update_task_inv (s : State) (t : Turn) (u : string) :
  task_entities_dict s = true -> client_turn_shape t = true ->
  task_entities_dict (fst (update_state_from_llm_response s t u)) = true.
Proof.
  intros Hs Ht. unfold update_state_from_llm_response.
  repeat case_match; simpl; try exact Hs; try reflexivity.
  all: try match goal with
         | H : entities_setitem _ _ _ = POk _ |- _ =>
             destruct (entities_setitem_dict _ _ _ _ H) as (m & o & ->); reflexivity
         end.
  all: try match goal with
         | H : entities_update (entities_obj ?s0) ?x = _ |- _ =>
             pose proof (entities_update_kind (entities_obj s0) x) as K;
             rewrite H in K; simpl in K; revert Hs; unfold task_entities_dict; simpl;
             destruct (entities_obj s0); [destruct K as (m' & o' & ->)|subst]; auto
         end.
  all: unfold task_entities_dict; simpl;
    unfold client_turn_shape, client_required_fields in Ht;
    destruct (opt_str_eqb (t_intent t) "schedule_meeting"); simpl in *;
    [destruct (turn_entities t); try discriminate; reflexivity|];
    destruct (opt_str_eqb (t_intent t) "send_email"); simpl in *; [|reflexivity];
    destruct (turn_entities t); try discriminate; reflexivity.
Qed.

Lemma handle_task_inv (env : Env) (s : State) :
  task_entities_dict s = true ->
  task_entities_dict (fst (handle_action_execution env s)) = true.
Proof.
  intros Hs. unfold handle_action_execution.
  repeat case_match; simpl; first [exact Hs | reflexivity].
Qed.

Lemma process_message_task_inv (env : Env) (o : ClassifierOutcome) (s : State) (u : string) :
  task_entities_dict s = true -> client_outcome o ->
  task_entities_dict (fst (process_message env o s u)) = true.
Proof.
  intros Hs Ho. destruct o as [e|t]; [exact Hs|].
  apply client_outcome_shape in Ho.
  pose proof (update_task_inv s t u Hs Ho) as H1.
  rewrite process_message_returned.
  destruct (update_state_from_llm_response s t u) as [s1 [r|e]]; simpl in *; [|exact H1].
  pose proof (handle_task_inv env s1 H1) as H2.
  destruct (handle_action_execution env s1) as [s2 [ex|e]]; simpl in *; [|exact H2].
  destruct (t_response t); exact H2.
Qed.

Lemma run_task_inv (s : State) (turns : list (Env * ClassifierOutcome * string)) :
  task_entities_dict s = true -> Forall (fun x => client_outcome x.1.2) turns ->
  task_entities_dict (run s turns) = true.
Proof.
  revert s. induction turns as [|[[env o] u] rest IH]; intros s0 H0 Ht; simpl; [exact H0|].
  inversion Ht as [|x l Hx Hl]; subst.
  apply (IH _ (process_message_task_inv env o s0 u H0 Hx) Hl).
Qed.

Lemma awaiting_not_ready (s : State) :
  awaiting_confirmation s = true -> is_ready_for_execution s <> POk true.
Proof.
  intros H. unfold is_ready_for_execution. rewrite H.
  destruct (negb _); [discriminate|].
  destruct (entities_for_get _); [|discriminate].
  rewrite !andb_false_r. repeat case_match; discriminate.
Qed.

(** C3: in every state (reachable or not) awaiting confirmation keeps
    [is_ready_for_execution] from being true, whatever the entities are;
    and in every state reached from the zero state by turns the LLM
    client can produce, awaiting confirmation makes it return false. *)
Theorem C3_awaiting_blocks_execution :
  (forall s : State,
     awaiting_confirmation s = true -> is_ready_for_execution s <> POk true)
  /\
  (forall turns : list (Env * ClassifierOutcome * string),
     Forall (fun x => client_outcome x.1.2) turns ->
     let s := run reset_state turns in
     awaiting_confirmation s = true -> is_ready_for_execution s = POk false).
Proof.
  split; [exact awaiting_not_ready|].
  intros turns Ht s Ha.
  assert (Hi : task_entities_dict s = true) by (apply run_task_inv; [reflexivity | exact Ht]).
  revert Hi. unfold task_entities_dict, is_ready_for_execution. rewrite Ha.
  destruct (session_active s); simpl; [|reflexivity].
  destruct (opt_str_eqb (intent s) "schedule_meeting"), (opt_str_eqb (intent s) "send_email");
    simpl; try reflexivity;
    destruct (entities_obj s); simpl; try discriminate; rewrite ?andb_false_r; reflexivity.
Qed.

Lemma C3_awaiting_blocks_execution_witness :
  is_ready_for_execution state_pending <> POk true
  /\ is_ready_for_execution
       (run reset_state
          [(env_saved,
            Returned (client_postprocess
                        (mk_turn "new_intent" "schedule_meeting" sara_meeting
                           "Shall I book it?" (Some true) None None)),
            input_book_meeting)]) = POk false.
Proof.
  destruct C3_awaiting_blocks_execution as [H1 H2]. split.
  - apply H1. reflexivity.
  - apply H2; [|vm_compute; reflexivity].
    constructor; [|constructor]. simpl. right; right. eexists; reflexivity.
Defined.

(* ------------------------------------------------------------------ *)
(** ** C4: corrections merge into the entities *)

Lemma update_correction (s : State) (t : Turn) (u : string) :
  t_action_type t = Some "correction" ->
  update_state_from_llm_response s t u =
    if default false (t_correction_detected t) then
      match entities_update (entities_obj s) (turn_entities t) with
      | (e', Some err) => (set_entities e' s, PRaise err)
      | (e', None) =>
          (set_awaiting_confirmation (default true (t_needs_confirmation t))
             (set_entities e' s), POk tt)
      end
    else (s, POk tt).
Proof. intros H. unfold update_state_from_llm_response. rewrite H. reflexivity. Qed.

Lemma turn_dict_some (t : Turn) (d : gmap string Value) :
  turn_dict t = Some d -> exists l, turn_entities t = VDict l /\ dict_of_items l = d.
Proof.
  unfold turn_dict. destruct (turn_entities t); try discriminate.
  intros H. injection H as <-. eauto.
Qed.

(** C4 (counterexample): a new meeting at 3pm, then a correction turn
    carrying [time = 4pm] but no [correction_detected] key: the time is
    not overwritten. *)
Lemma C4_unflagged_correction_ignored :
  let s1 := fst (update_state_from_llm_response reset_state turn_book_meeting
                   input_book_meeting) in
  let s2 := fst (update_state_from_llm_response s1 turn_correct_time
                   "actually make it 4pm") in
  turn_entities turn_correct_time = VDict [("time", VStr "4pm")]
  /\ entities s2 !! "time" = Some (VStr "3pm").
Proof. vm_compute. split; reflexivity. Qed.

(** C4 (amended): after a new-intent turn and then a correction turn,
    when the stored entities and the correction's entities are dicts,
    the transition returns normally; keys the correction does not
    mention keep their value; when the turn has [correction_detected]
    true, every mentioned key takes the correction's value; otherwise
    the state is left as it was.  (This is the transition; a save that
    follows in the same call resets the session.) *)
Theorem C4_correction_merge :
  forall (s : State) (t_new t_corr : Turn) (u1 u2 : string)
         (m1 deltas : gmap string Value) (o1 : list (Value * Value)),
    t_action_type t_new = Some "new_intent" ->
    t_action_type t_corr = Some "correction" ->
    let s1 := fst (update_state_from_llm_response s t_new u1) in
    entities_obj s1 = EDict m1 o1 ->
    turn_dict t_corr = Some deltas ->
    let r := update_state_from_llm_response s1 t_corr u2 in
    snd r = POk tt
    /\ (forall k : string, deltas !! k = None -> entities (fst r) !! k = entities s1 !! k)
    /\ (t_correction_detected t_corr = Some true ->
        (forall (k : string) (v : Value),
           deltas !! k = Some v -> entities (fst r) !! k = Some v)
        /\ exists m2, entities_obj (fst r) = EDict m2 o1)
    /\ (t_correction_detected t_corr <> Some true -> fst r = s1).
Proof.
  intros s t_new t_corr u1 u2 m1 deltas o1 _ Hc s1 Hm Hd r.
  destruct (turn_dict_some t_corr deltas Hd) as (l & Hl & <-).
  unfold r. rewrite (update_correction s1 t_corr u2 Hc), Hm, Hl.
  destruct (t_correction_detected t_corr) as [[|]|]; simpl.
  - split; [reflexivity|]. split; [|split].
    + intros k Hk. unfold entities. rewrite Hm. simpl.
      unfold py_dict_update. by rewrite lookup_union_r.
    + intros _. split; [|eexists; reflexivity].
      intros k v Hk. unfold entities. simpl. unfold py_dict_update.
      rewrite lookup_union_l'; [exact Hk|]. rewrite Hk. eexists; reflexivity.
    + congruence.
  - split; [reflexivity|]. split; [reflexivity|]. split; [discriminate|reflexivity].
  - split; [reflexivity|]. split; [reflexivity|]. split; [discriminate|reflexivity].
Qed.

Lemma C4_correction_merge_witness :
  let s1 := fst (update_state_from_llm_response reset_state turn_book_meeting
                   input_book_meeting) in
  let s2 := fst (update_state_from_llm_response s1 turn_correct_time_flagged
                   "actually make it 4pm") in
  entities s2 !! "time" = Some (VStr "4pm")
  /\ entities s2 !! "title" = entities s1 !! "title".
Proof.
  destruct (C4_correction_merge reset_state turn_book_meeting turn_correct_time_flagged
              input_book_meeting "actually make it 4pm"
              (dict_of_items sara_meeting) (dict_of_items [("time", VStr "4pm")]) []
              eq_refl eq_refl ltac:(vm_compute; reflexivity) ltac:(vm_compute; reflexivity))
    as (_ & Hkeep & Hset & _).
  split.
  - apply (Hset eq_refl). vm_compute. reflexivity.
  - apply Hkeep. vm_compute. reflexivity.
Defined.

(* ------------------------------------------------------------------ *)
(** ** C5: scenario A *)

(** C5 (counterexample): scenario A, with the classifier's dict as the
    client post-processes it (it adds [missing_entities = ["participants"]]
    and [ready_to_execute = False], and no [needs_confirmation]): the
    manager's state is ready, its missing list is empty, and the same
    call saves the meeting. *)
Lemma C5_scenario_A_ready_without_participants :
  let s1 := fst (update_state_from_llm_response reset_state turn_book_meeting
                   input_book_meeting) in
  entities s1 !! "participants" = None
  /\ is_ready_for_execution s1 = POk true
  /\ get_missing_entities s1 = POk []
  /\ reply_execution (snd (process_message env_saved (Returned turn_book_meeting)
                             reset_state input_book_meeting))
     = Some (ExecSaved "meeting_x.json" "outbox/meeting_x.json" "meeting with Sara").
Proof. vm_compute. repeat split. Qed.

(** C5 (amended): after a new_intent / schedule_meeting turn whose
    entities are a dict with non-blank title, date and time, the
    missing-field list is empty (participants are never required), and
    the state is ready for execution exactly when the turn did not ask
    for confirmation. *)
Theorem C5_new_meeting_ready_unless_confirmation :
  forall (s : State) (t : Turn) (u : string) (d : gmap string Value),
    t_action_type t = Some "new_intent" ->
    t_intent t = Some "schedule_meeting" ->
    turn_dict t = Some d ->
    field_filled d "title" = true ->
    field_filled d "date" = true ->
    field_filled d "time" = true ->
    let r := update_state_from_llm_response s t u in
    snd r = POk tt
    /\ get_missing_entities (fst r) = POk []
    /\ is_ready_for_execution (fst r) = POk (negb (default false (t_needs_confirmation t))).
Proof.
  intros s t u d Ha Hi Hd Ht Hda Htm r.
  destruct (turn_dict_some t d Hd) as (l & Hl & <-).
  unfold r, update_state_from_llm_response. rewrite Ha, Hi, Hl. simpl.
  unfold get_missing_entities, is_ready_for_execution, meeting_fields. simpl.
  rewrite Ht, Hda, Htm. split; [|split]; reflexivity.
Qed.

Lemma C5_new_meeting_ready_unless_confirmation_witness :
  let r := update_state_from_llm_response reset_state turn_book_meeting
             input_book_meeting in
  snd r = POk tt /\ get_missing_entities (fst r) = POk []
  /\ is_ready_for_execution (fst r) = POk true.
Proof.
  apply (C5_new_meeting_ready_unless_confirmation reset_state turn_book_meeting
           input_book_meeting (dict_of_items sara_meeting)); vm_compute; reflexivity.
Defined.

(* ------------------------------------------------------------------ *)
(** ** C6: completeness of an email *)

Lemma has_nonspace_nonempty (r : string) :
  has_nonspace r = true -> String.eqb r "" = false.
Proof. destruct r; simpl; [discriminate | reflexivity]. Qed.

(** C6 (counterexample): an email to ["bob"] with a body is complete
    for [_has_required_entities], though ["bob"] fails
    [validate_email_addresses]. *)
Lemma C6_bare_name_recipient_complete :
  let s := fst (update_state_from_llm_response reset_state turn_email_bob
                  "Email bob that I am running late") in
  entities s !! "recipient" = Some (VStr "bob")
  /\ has_required_entities s = POk true
  /\ validate_email_addresses (VStr "bob") = false.
Proof. vm_compute. repeat split. Qed.

(** C6 (amended): for send_email, [_has_required_entities] holds exactly
    when the recipient is present and non-blank and the body or the
    subject is (on entities that are not a dict, [get] raises); no
    email-shape check is made, so any non-blank string recipient with a
    body passes. *)
Theorem C6_email_completeness_presence_only :
  forall s : State,
    intent s = Some "send_email" ->
    has_required_entities s =
      match entities_obj s with
      | EDict e _ =>
          POk (field_filled e "recipient"
               && (field_filled e "body" || field_filled e "subject"))
      | EOther v => PRaise (no_attr v "get")
      end
    /\ (forall r : string,
          entities s !! "recipient" = Some (VStr r) ->
          has_nonspace r = true ->
          field_filled (entities s) "body" = true ->
          has_required_entities s = POk true).
Proof.
  intros s Hi.
  assert (Hc : has_required_entities s =
                 match entities_obj s with
                 | EDict e _ =>
                     POk (field_filled e "recipient"
                          && (field_filled e "body" || field_filled e "subject"))
                 | EOther v => PRaise (no_attr v "get")
                 end).
  { unfold has_required_entities. rewrite Hi. simpl.
    destruct (entities_obj s); reflexivity. }
  split; [exact Hc|].
  intros r. unfold entities. rewrite Hc.
  destruct (entities_obj s) as [e o|v]; [|rewrite lookup_empty; discriminate].
  intros Hr Hns Hb. rewrite Hb.
  unfold field_filled at 1. rewrite Hr. simpl.
  rewrite (has_nonspace_nonempty r Hns), Hns. reflexivity.
Qed.

Lemma C6_email_completeness_presence_only_witness :
  let s := fst (update_state_from_llm_response reset_state turn_email_bob
                  "Email bob that I am running late") in
  has_required_entities s = POk true.
Proof.
  destruct (C6_email_completeness_presence_only
              (fst (update_state_from_llm_response reset_state turn_email_bob
                      "Email bob that I am running late")) eq_refl) as [_ H].
  apply (H "bob"); vm_compute; reflexivity.
Defined.

(* ------------------------------------------------------------------ *)
(** ** Facts about history and the failure turns *)

Lemma update_parse_error_turn (s : State) (u : string) :
  update_state_from_llm_response s parse_error_turn u = (s, POk tt).
Proof. reflexivity. Qed.

Lemma update_client_error_turn (s : State) (u : string) :
  update_state_from_llm_response s client_error_turn u = (s, POk tt).
Proof. reflexivity. Qed.

Lemma handle_history (env : Env) (s : State) :
  history (fst (handle_action_execution env s)) = history s.
Proof.
  destruct (is_ready_for_execution s) as [[]|e] eqn:R.
  - rewrite (handle_ready env s R). cbv zeta.
    destruct (env_save env _); reflexivity.
  - rewrite (handle_not_ready env s R). reflexivity.
  - rewrite (handle_raise env s e R). reflexivity.
Qed.

Ltac eqb_subst :=
  repeat match goal with
         | H : String.eqb _ _ = true |- _ => apply String.eqb_eq in H; subst
         end.

Lemma update_history (s : State) (t : Turn) (u : string) :
  history (fst (update_state_from_llm_response s t u)) = history s
  \/ history (fst (update_state_from_llm_response s t u)) = [].
Proof.
  unfold update_state_from_llm_response.
  repeat case_match; simpl; auto.
Qed.

Lemma update_history_kept (s : State) (t : Turn) (u : string) :
  t_action_type t <> Some "confirmation" ->
  t_action_type t <> Some "cancellation" ->
  history (fst (update_state_from_llm_response s t u)) = history s.
Proof.
  intros H1 H2. unfold update_state_from_llm_response.
  repeat case_match; simpl; eqb_subst; try reflexivity;
    destruct (t_action_type t); simpl in *; subst; congruence.
Qed.

Lemma history_push_drop (h : list HistoryEntry) (e : HistoryEntry) :
  history_push h e = drop (length h + 1 - max_history) (h ++ [e]).
Proof.
  unfold history_push. rewrite length_app. simpl.
  destruct (Nat.ltb_spec max_history (length h + 1)) as [_|Hle]; [reflexivity|].
  replace (length h + 1 - max_history) with 0 by lia. reflexivity.
Qed.

Lemma history_push_length (h : list HistoryEntry) (e : HistoryEntry) :
  length (history_push h e) <= max_history.
Proof.
  rewrite history_push_drop, length_drop, length_app. simpl.
  unfold max_history. lia.
Qed.

(** Every call ends by pushing one entry onto the history left by the
    transition and the execution step. *)
Lemma process_message_history (env : Env) (o : ClassifierOutcome) (s : State) (u : string) :
  let res := process_message env o s u in
  exists snap,
    history (fst res) =
      history_push
        (match o with
         | Raised _ => history s
         | Returned t => history (fst (update_state_from_llm_response s t u))
         end)
        (mkEntry u (reply_text (snd res)) (env_now env) snap).
Proof.
  destruct o as [e|t]; [eexists; reflexivity|].
  cbv zeta. rewrite process_message_returned.
  destruct (update_state_from_llm_response s t u) as [s1 [r|e]]; cbn [fst];
    [|eexists; reflexivity].
  pose proof (handle_history env s1) as Hh.
  destruct (handle_action_execution env s1) as [s2 [ex|e]]; cbn [fst] in Hh |- *;
    rewrite <- Hh; [destruct (t_response t) eqn:Er|]; eexists; cbn [reply_text snd];
    rewrite ?Er; reflexivity.
Qed.

(* ------------------------------------------------------------------ *)
(** ** C7: classifier failures *)

(** C7 (counterexample): a first call reaches a ready meeting whose
    write fails; on the next call the classifier's answer cannot be
    parsed, yet the execution step runs again, the write succeeds and
    the intent is reset. *)
Lemma C7_error_turn_resets_ready_state :
  let s0 := state_after_failed_save in
  let res := process_message env_saved (Returned parse_error_turn) s0
               "did it work?" in
  intent s0 = Some "schedule_meeting"
  /\ reply_action_type (snd res) = Some "error"
  /\ intent (fst res) = None.
Proof. vm_compute. repeat split. Qed.

(** C7 (amended): when the classifier raises, [process_message] returns
    the manager's apology with action_type "error", executes nothing and
    only pushes one history entry.  When the client returns its
    parse-error or error dict, the transition leaves the state as it is
    and the execution step runs; the reply has action_type "error" and
    exactly one history entry is pushed.  On a state that is not ready,
    the reply is that dict with its own text and no execution result,
    and nothing else changes; a state left ready by an earlier failed
    write is executed in that call; when the readiness check raises, the
    reply is the manager's apology. *)
Theorem C7_classifier_failure :
  forall (env : Env) (s : State) (u : string),
    (forall e : string,
       process_message env (Raised e) s u
       = (add_to_history s u manager_error_text (env_now env), RError e))
    /\
    (forall (t : Turn) (txt : string),
       (t, txt) = (parse_error_turn, "I had trouble understanding that. Could you rephrase?")
       \/ (t, txt) = (client_error_turn,
                      "Sorry, I had trouble processing that. Could you try again?") ->
       let res := process_message env (Returned t) s u in
       reply_action_type (snd res) = Some "error"
       /\ (exists snap, history (fst res) =
             history_push (history s) (mkEntry u (reply_text (snd res)) (env_now env) snap))
       /\ (is_ready_for_execution s = POk false ->
           res = (add_to_history s u txt (env_now env), RTurn t None))
       /\ (is_ready_for_execution s = POk true ->
           exists ex, handle_action_execution env s
                        = (fst (handle_action_execution env s), POk (Some ex))
                      /\ res = (add_to_history (fst (handle_action_execution env s)) u txt
                                  (env_now env), RTurn t (Some ex)))
       /\ (forall e : string, is_ready_for_execution s = PRaise e ->
           res = (add_to_history s u manager_error_text (env_now env), RError e))).
Proof.
  intros env s u. split; [reflexivity|].
  intros t txt Ht res.
  assert (Hu : update_state_from_llm_response s t u = (s, POk tt)
               /\ t_response t = Some txt /\ t_action_type t = Some "error").
  { destruct Ht as [Ht|Ht]; injection Ht as -> ->; repeat split. }
  destruct Hu as (Hu & Hr & Ha).
  destruct (process_message_history env (Returned t) s u) as [snap Hh].
  fold res in Hh. rewrite Hu in Hh. cbn [fst] in Hh.
  split; [|split; [exists snap; exact Hh|]];
    unfold res; rewrite process_message_returned, Hu.
  - destruct (handle_action_execution env s) as [s2 [ex|e]];
      [rewrite Hr|]; simpl; congruence.
  - split; [|split].
    + intros R. rewrite (handle_not_ready env s R), Hr. reflexivity.
    + intros R. rewrite (handle_ready env s R). cbv zeta.
      destruct (env_save env _); simpl; rewrite Hr; eexists; split; reflexivity.
    + intros e R. rewrite (handle_raise env s e R). reflexivity.
Qed.

Lemma C7_classifier_failure_witness :
  process_message env_saved (Raised "Groq API call failed: timeout") state_pending "hello?"
    = (add_to_history state_pending "hello?" manager_error_text (env_now env_saved),
       RError "Groq API call failed: timeout")
  /\ process_message env_saved (Returned parse_error_turn) state_pending "yes"
     = (add_to_history state_pending "yes"
          "I had trouble understanding that. Could you rephrase?" (env_now env_saved),
        RTurn parse_error_turn None)
  /\ (exists ex,
        handle_action_execution env_saved state_after_failed_save
          = (fst (handle_action_execution env_saved state_after_failed_save), POk (Some ex))
        /\ process_message env_saved (Returned client_error_turn) state_after_failed_save
             "did it work?"
           = (add_to_history (fst (handle_action_execution env_saved state_after_failed_save))
                "did it work?" "Sorry, I had trouble processing that. Could you try again?"
                (env_now env_saved), RTurn client_error_turn (Some ex))).
Proof.
  split; [|split].
  - apply (C7_classifier_failure env_saved state_pending "hello?").
  - destruct (C7_classifier_failure env_saved state_pending "yes") as [_ H].
    destruct (H parse_error_turn "I had trouble understanding that. Could you rephrase?"
                (or_introl eq_refl)) as (_ & _ & H3 & _).
    apply H3. vm_compute. reflexivity.
  - destruct (C7_classifier_failure env_saved state_after_failed_save "did it work?")
      as [_ H].
    destruct (H client_error_turn
                "Sorry, I had trouble processing that. Could you try again?"
                (or_intror eq_refl)) as (_ & _ & _ & H4 & _).
    apply H4. vm_compute. reflexivity.
Defined.

(* ------------------------------------------------------------------ *)
(** ** C8: the outcome of an execution *)

(** C8: a state that is not ready is left alone with no result; a ready
    state builds its action and hands it to the outbox; a successful
    write resets the session to the zero state keeping the history and
    recording the saved action, a failed write leaves the state as it was
    and reports [ExecFailed], distinct from the not-ready [None].  (When
    the readiness check itself raises, the exception propagates.) *)
Theorem C8_execution_outcome :
  forall (env : Env) (s : State),
    (is_ready_for_execution s = POk false ->
     handle_action_execution env s = (s, POk None))
    /\ (forall e : string, is_ready_for_execution s = PRaise e ->
          handle_action_execution env s = (s, PRaise e))
    /\ (is_ready_for_execution s = POk true ->
        let a := {| a_type := intent s; a_entities := entities s;
                    a_timestamp := env_now env;
                    a_conversation_id := env_conversation_id env |} in
        get_action_for_execution env s = POk (Some a)
        /\ (forall fn fp : string, env_save env a = SaveOk fn fp ->
              handle_action_execution env s =
                (set_last_saved_action
                   (Some {| sa_filename := fn; sa_filepath := fp;
                            sa_action_type := intent s;
                            sa_summary := env_summary env a;
                            sa_saved_at := env_now env |})
                   (set_history (history s) reset_state),
                 POk (Some (ExecSaved fn fp (env_summary env a)))))
        /\ (forall err : string, env_save env a = SaveErr err ->
              handle_action_execution env s = (s, POk (Some (ExecFailed err))))).
Proof.
  intros env s. split; [apply handle_not_ready|]. split; [apply handle_raise|].
  intros R a. split; [|split].
  - unfold get_action_for_execution. rewrite R. reflexivity.
  - intros fn fp Hs. rewrite (handle_ready env s R). cbv zeta. fold a.
    rewrite Hs. reflexivity.
  - intros err Hs. rewrite (handle_ready env s R). cbv zeta. fold a.
    rewrite Hs. reflexivity.
Qed.

Lemma C8_execution_outcome_witness :
  let s1 := fst (update_state_from_llm_response reset_state turn_book_meeting
                   input_book_meeting) in
  handle_action_execution env_write_fails s1
    = (s1, POk (Some (ExecFailed "Failed to save meeting: disk full")))
  /\ handle_action_execution env_saved state_pending = (state_pending, POk None).
Proof.
  split.
  - destruct (C8_execution_outcome env_write_fails
                (fst (update_state_from_llm_response reset_state turn_book_meeting
                        input_book_meeting))) as (_ & _ & H).
    destruct (H ltac:(vm_compute; reflexivity)) as (_ & _ & Herr).
    apply Herr. reflexivity.
  - destruct (C8_execution_outcome env_saved state_pending) as [H _].
    apply H. reflexivity.
Defined.

(* ------------------------------------------------------------------ *)
(** ** C9: bounded history *)

(** C9: every call of [process_message] (classifier answer, classifier
    failure, reset or execution alike) appends exactly one entry with the
    user's text, the reply and the timestamp to the history the turn
    starts from, and drops entries from the front down to [max_history];
    that history is the previous one, except that a reset by a negative
    confirmation or a cancellation empties it first.  Hence the history
    never holds more than [max_history] entries. *)
Theorem C9_history_bounded_fifo :
  (forall (env : Env) (o : ClassifierOutcome) (s : State) (u : string),
     let res := process_message env o s u in
     exists (h0 : list HistoryEntry) (snap : Entities),
       (h0 = history s \/ h0 = [])
       /\ (forall t : Turn, o = Returned t ->
             t_action_type t <> Some "confirmation" ->
             t_action_type t <> Some "cancellation" -> h0 = history s)
       /\ history (fst res) =
            drop (length h0 + 1 - max_history)
              (h0 ++ [mkEntry u (reply_text (snd res)) (env_now env) snap]))
  /\
  (forall (s : State) (turns : list (Env * ClassifierOutcome * string)),
     length (history s) <= max_history ->
     length (history (run s turns)) <= max_history).
Proof.
  split.
  - intros env o s u res.
    destruct (process_message_history env o s u) as [snap Hh].
    destruct o as [e|t].
    + exists (history s), snap. split; [left; reflexivity|]. split.
      * intros t' Ht'. discriminate.
      * unfold res. rewrite Hh. apply history_push_drop.
    + exists (history (fst (update_state_from_llm_response s t u))), snap.
      split; [apply update_history|]. split.
      * intros t' Ht' H1 H2. injection Ht' as <-.
        apply update_history_kept; assumption.
      * unfold res. rewrite Hh. apply history_push_drop.
  - intros s turns. revert s. induction turns as [|[[env o] u] rest IH];
      intros s Hs; simpl; [exact Hs|].
    apply IH. destruct (process_message_history env o s u) as [snap Hh].
    rewrite Hh. apply history_push_length.
Qed.

Lemma C9_history_bounded_fifo_witness :
  length (history (run reset_state
    (repeat (env_saved, Returned parse_error_turn, "hello") 12))) <= max_history.
Proof.
  destruct C9_history_bounded_fifo as [_ H]. apply H. simpl. unfold max_history. lia.
Defined.

(* ------------------------------------------------------------------ *)
(** ** C10: the gate after a call *)

(** C10 (counterexample): a first call reaches a ready meeting whose
    write fails; on the next call the classifier raises, so no execution
    is attempted in that call, yet the state is still ready afterwards.
    The same happens when the classifier's dict makes the transition
    raise: a switch to an email with [missing_entities] null, on that
    state; or a correction whose list of pairs is stored up to a
    malformed element, on a meeting that lacked only its time. *)
Lemma C10_raised_turn_leaves_gate_open :
  let prev := process_message env_write_fails (Returned turn_book_meeting)
                reset_state input_book_meeting in
  let res := process_message env_saved (Raised "Groq API call failed: timeout")
               (fst prev) "hello?" in
  let res2 := process_message env_saved (Returned turn_email_null_missing)
                (fst prev) "email Sara the agenda" in
  let res3 := process_message env_saved (Returned turn_correct_pairs)
                state_meeting_no_time "at 3pm" in
  reply_execution (snd prev) = Some (ExecFailed "Failed to save meeting: disk full")
  /\ reply_execution (snd res) = None
  /\ is_ready_for_execution (fst res) = POk true
  /\ snd res2 = RError "argument of type 'NoneType' is not iterable"
  /\ is_ready_for_execution (fst res2) = POk true
  /\ is_ready_for_execution state_meeting_no_time = POk false
  /\ snd res3 = RError "cannot convert dictionary update sequence element #1 to a sequence"
  /\ is_ready_for_execution (fst res3) = POk true.
Proof. vm_compute. repeat split. Qed.

(** C10 (amended): after a call, the state is ready for execution only
    if that call's write failed (the failure is in the reply unless the
    classifier's dict has no "response" key), or the classifier raised
    and the state was already ready before the call, or the transition
    raised and left a ready state: the unchanged one, or one whose
    entities a correction updated in part.  A turn whose transition
    returns with the gate open is executed in the same call, and a
    successful write leaves the gate closed. *)
Theorem C10_gate_after_call :
  forall (env : Env) (o : ClassifierOutcome) (s : State) (u : string),
    let res := process_message env o s u in
    (is_ready_for_execution (fst res) = POk true ->
       (exists t s1 err,
          o = Returned t /\ update_state_from_llm_response s t u = (s1, POk tt)
          /\ handle_action_execution env s1 = (s1, POk (Some (ExecFailed err)))
          /\ (snd res = RTurn t (Some (ExecFailed err))
              \/ (t_response t = None /\ snd res = RError "'response'")))
       \/ ((exists e, o = Raised e) /\ is_ready_for_execution s = POk true)
       \/ (exists t s1 err,
             o = Returned t /\ update_state_from_llm_response s t u = (s1, PRaise err)
             /\ is_ready_for_execution s1 = POk true
             /\ (s1 = s \/ (t_action_type t = Some "correction"
                            /\ exists e', s1 = set_entities e' s))))
    /\ (forall (t : Turn) (s1 : State), o = Returned t ->
          update_state_from_llm_response s t u = (s1, POk tt) ->
          is_ready_for_execution s1 = POk true ->
          exists ex, snd (handle_action_execution env s1) = POk (Some ex)
                     /\ (forall r, t_response t = Some r -> snd res = RTurn t (Some ex)))
    /\ (forall fn fp sm : string,
          reply_execution (snd res) = Some (ExecSaved fn fp sm) ->
          is_ready_for_execution (fst res) = POk false).
Proof.
  intros env o s u res. destruct o as [e|t].
  - unfold res. rewrite process_message_raised. simpl. rewrite is_ready_add_to_history.
    split; [intros R; right; left; split; [exists e; reflexivity | exact R]|].
    split; [intros t' s1 Ht'; discriminate|]. intros fn fp sm H. discriminate.
  - unfold res. rewrite process_message_returned.
    destruct (update_state_from_llm_response s t u) as [s1 [[]|err]] eqn:U.
    + destruct (is_ready_for_execution s1) as [[]|e] eqn:R.
      * rewrite (handle_ready env s1 R). cbv zeta.
        destruct (env_save env _) as [fn fp|err] eqn:Es.
        -- split; [destruct (t_response t); intros R'; vm_compute in R'; discriminate R'|].
           split.
           ++ intros t' s1' Ht' U' _. injection Ht' as <-. rewrite U in U'.
              injection U' as <-. rewrite (handle_ready env s1 R). cbv zeta. rewrite Es.
              eexists; split; [reflexivity|].
              intros r Hr. rewrite Hr. reflexivity.
           ++ destruct (t_response t); simpl; [|discriminate].
              intros; vm_compute; reflexivity.
        -- split; [|split].
           ++ intros _. left. exists t, s1, err. split; [reflexivity|].
              split; [exact U|]. split; [rewrite (handle_ready env s1 R); cbv zeta;
                                            rewrite Es; reflexivity|].
              destruct (t_response t); [left; reflexivity | right; split; reflexivity].
           ++ intros t' s1' Ht' U' _. injection Ht' as <-. rewrite U in U'.
              injection U' as <-. rewrite (handle_ready env s1 R). cbv zeta. rewrite Es.
              eexists; split; [reflexivity|].
              intros r Hr. rewrite Hr. reflexivity.
           ++ destruct (t_response t); simpl; discriminate.
      * rewrite (handle_not_ready env s1 R).
        assert (Hs : forall b, is_ready_for_execution (add_to_history s1 u b (env_now env))
                               = POk false) by (intros b; rewrite is_ready_add_to_history; exact R).
        split; [destruct (t_response t); simpl; rewrite Hs; discriminate|].
        split.
        -- intros t' s1' Ht' U' R'. injection Ht' as <-. rewrite U in U'.
           injection U' as <-. congruence.
        -- destruct (t_response t); simpl; discriminate.
      * rewrite (handle_raise env s1 e R). simpl. rewrite is_ready_add_to_history, R.
        split; [discriminate|]. split; [|discriminate].
        intros t' s1' Ht' U' R'. injection Ht' as <-. rewrite U in U'.
        injection U' as <-. congruence.
    + simpl. rewrite is_ready_add_to_history.
      split; [|split; [|discriminate]].
      * intros R. right. right. exists t, s1, err. repeat split; try assumption.
        exact (update_raise_shape s t u s1 err U).
      * intros t' s1' Ht' U'. injection Ht' as <-. congruence.
Qed.

Lemma C10_gate_after_call_witness :
  (exists ex, snd (handle_action_execution env_saved
                    (fst (update_state_from_llm_response reset_state turn_book_meeting
                            input_book_meeting))) = POk (Some ex)
              /\ (forall r, t_response turn_book_meeting = Some r ->
                    snd (process_message env_saved (Returned turn_book_meeting)
                           reset_state input_book_meeting) = RTurn turn_book_meeting (Some ex)))
  /\ is_ready_for_execution
       (fst (process_message env_saved (Returned turn_book_meeting)
               reset_state input_book_meeting)) = POk false.
Proof.
  destruct (C10_gate_after_call env_saved (Returned turn_book_meeting) reset_state
              input_book_meeting) as (_ & H2 & H3).
  split.
  - apply (H2 turn_book_meeting _ eq_refl); vm_compute; reflexivity.
  - apply (H3 "meeting_x.json" "outbox/meeting_x.json" "meeting with Sara").
    vm_compute. reflexivity.
Defined.

(* ------------------------------------------------------------------ *)
(** ** Further properties of the code *)

(** Helper facts shared by the proofs below *)

Lemma is_ready_dict (s : State) :
  is_ready_for_execution s = POk true -> exists m o, entities_obj s = EDict m o.
Proof.
  unfold is_ready_for_execution. destruct (negb _); [discriminate|].
  destruct (entities_obj s) as [m o|v]; simpl; [eauto|discriminate].
Qed.

Lemma is_ready_meeting_filled (s : State) :
  is_ready_for_execution s = POk true -> intent s = Some "schedule_meeting" ->
  forallb (field_filled (entities s)) meeting_fields = true
  /\ awaiting_confirmation s = false /\ session_active s = true.
Proof.
  intros R I. unfold is_ready_for_execution in R. rewrite I in R. simpl in R.
  destruct (session_active s); [|discriminate]. simpl in R. unfold entities.
  destruct (entities_obj s) as [m o|v]; simpl in R; [|discriminate].
  injection R as R. apply andb_true_iff in R as [R1 R2]. apply negb_true_iff in R2. auto.
Qed.

Lemma is_ready_email_filled (s : State) :
  is_ready_for_execution s = POk true -> intent s = Some "send_email" ->
  field_filled (entities s) "recipient" = true
  /\ (field_filled (entities s) "body" || field_filled (entities s) "subject") = true
  /\ awaiting_confirmation s = false /\ session_active s = true.
Proof.
  intros R I. unfold is_ready_for_execution in R. rewrite I in R. simpl in R.
  destruct (session_active s); [|discriminate]. simpl in R. unfold entities.
  destruct (entities_obj s) as [m o|v]; simpl in R; [|discriminate].
  injection R as R. apply andb_true_iff in R as [R1 R2].
  apply andb_true_iff in R1 as [R0 R1]. apply negb_true_iff in R2. auto.
Qed.

Lemma validate_meeting_data_fst (e : gmap string Value) :
  fst (validate_meeting_data e) = forallb (field_filled e) meeting_fields.
Proof.
  unfold validate_meeting_data, meeting_fields. simpl.
  destruct (field_filled e "title"), (field_filled e "date"),
    (field_filled e "time"), (get_truthy e "participants"); reflexivity.
Qed.

Lemma field_filled_truthy (e : gmap string Value) (k : string) (v : Value) :
  e !! k = Some v -> field_filled e k = true -> truthy v = true.
Proof.
  unfold field_filled. intros ->. destruct (truthy v); auto.
Qed.

(** The completeness check and the missing list agree: both raise, with
    the same error, or the check holds exactly when the list is empty. *)
Lemma has_required_missing (s : State) :
  match has_required_entities s, get_missing_entities s with
  | POk b, POk l => (b = true <-> l = [])
  | PRaise e1, PRaise e2 => e1 = e2
  | _, _ => False
  end.
Proof.
  unfold has_required_entities, get_missing_entities, meeting_fields.
  destruct (opt_str_eqb (intent s) "schedule_meeting").
  - destruct (entities_for_get (entities_obj s)) as [e|err]; [|reflexivity].
    simpl. destruct (field_filled e "title"), (field_filled e "date"),
      (field_filled e "time"); simpl; split; congruence.
  - destruct (opt_str_eqb (intent s) "send_email"); [|tauto].
    destruct (entities_for_get (entities_obj s)) as [e|err]; [|reflexivity].
    destruct (field_filled e "recipient"),
      (field_filled e "body" || field_filled e "subject"); simpl; split; congruence.
Qed.

(** X1: [_has_required_entities] holds exactly when
    [_get_missing_entities] is empty, for every intent. *)
Theorem X_has_required_iff_no_missing (s : State) :
  has_required_entities s = POk true <-> get_missing_entities s = POk [].
Proof.
  pose proof (has_required_missing s) as H.
  destruct (has_required_entities s) as [b|e1], (get_missing_entities s) as [l|e2];
    try contradiction; split; intros Hx; try discriminate.
  - injection Hx as ->. f_equal. apply H. reflexivity.
  - injection Hx as ->. f_equal. apply H. reflexivity.
Qed.

(** X2: the saver's meeting validation accepts exactly the entities in
    which title, date and time are filled, as the manager's readiness
    check has them; participants are never required. *)
Theorem X_meeting_validation_matches_gate (e : gmap string Value) :
  fst (validate_meeting_data e) = true
  <-> field_filled e "title" = true /\ field_filled e "date" = true
      /\ field_filled e "time" = true.
Proof.
  rewrite validate_meeting_data_fst. unfold meeting_fields. simpl.
  rewrite !andb_true_iff. tauto.
Qed.

Lemma save_email_invalid_recipient (e : gmap string Value) (ob : Outbox) (stamp : string)
    (r : Value) :
  e !! "recipient" = Some r -> validate_email_addresses r = false ->
  exists missing, save_email_action e ob stamp
                  = SaveErr ("Missing required fields: " ++ str_join ", " missing).
Proof.
  intros Hr Hv. unfold save_email_action, validate_email_data.
  rewrite Hr. simpl default. rewrite Hv, andb_false_r. simpl. eexists. reflexivity.
Qed.

(** X3: a ready email whose recipient has no e-mail address in it
    (a bare name, as the readiness check allows) is refused by the
    outbox's validation at every attempt, and the state stays as it was:
    still ready. *)
Theorem X_ready_email_invalid_recipient_stuck (ob : Outbox)
    (stamp now conv : string) (summ : Action -> string) (s : State) (r : Value) :
  is_ready_for_execution s = POk true -> intent s = Some "send_email" ->
  entities s !! "recipient" = Some r -> validate_email_addresses r = false ->
  exists missing,
    handle_action_execution (outbox_env ob stamp now conv summ) s
    = (s, POk (Some (ExecFailed ("Missing required fields: " ++ str_join ", " missing)))).
Proof.
  intros R I Hr Hv. rewrite (handle_ready _ s R). cbv zeta. simpl env_save.
  unfold save_action_to_outbox. simpl a_type. simpl a_entities. rewrite I. simpl.
  destruct (save_email_invalid_recipient (entities s) ob stamp r Hr Hv) as [m Hm].
  rewrite Hm. exists m. reflexivity.
Qed.

Lemma X_ready_email_invalid_recipient_stuck_witness :
  is_ready_for_execution
    (fst (process_message env_write_fails (Returned turn_email_bob) reset_state "email bob"))
  = POk true
  /\ intent (fst (process_message env_write_fails (Returned turn_email_bob) reset_state "email bob"))
     = Some "send_email"
  /\ entities (fst (process_message env_write_fails (Returned turn_email_bob) reset_state "email bob"))
       !! "recipient" = Some (VStr "bob")
  /\ validate_email_addresses (VStr "bob") = false
  /\ exists missing,
      handle_action_execution (outbox_env (mkOutbox "outbox" IOOk IOOk) "20261016_090000"
                                 "2026-10-16T09:00:00" "conv_1" (fun _ => ""))
        (fst (process_message env_write_fails (Returned turn_email_bob) reset_state "email bob"))
      = (fst (process_message env_write_fails (Returned turn_email_bob) reset_state "email bob"),
         POk (Some (ExecFailed ("Missing required fields: " ++ str_join ", " missing)))).
Proof.
  split; [vm_compute; reflexivity|]. split; [vm_compute; reflexivity|].
  split; [vm_compute; reflexivity|]. split; [vm_compute; reflexivity|].
  apply (X_ready_email_invalid_recipient_stuck _ _ _ _ _ _ (VStr "bob"));
    vm_compute; reflexivity.
Defined.

Lemma get_strip_str (e : gmap string Value) (k d x : string) :
  e !! k = Some (VStr x) -> get_strip e k d = POk (py_strip x).
Proof. unfold get_strip. intros ->. reflexivity. Qed.

Lemma get_strip_if_set_ok (e : gmap string Value) (k : string) :
  (forall v, e !! k = Some v -> truthy v = true -> exists x, v = VStr x) ->
  get_strip_if_set e k = POk tt.
Proof.
  intros H. unfold get_strip_if_set, get_truthy, get_strip.
  destruct (e !! k) as [v|] eqn:E; [|reflexivity].
  destruct (truthy v) eqn:T; [|reflexivity].
  destruct (H v eq_refl T) as [x ->]. reflexivity.
Qed.

Lemma validate_meeting_ok (e : gmap string Value) :
  forallb (field_filled e) meeting_fields = true ->
  exists missing, validate_meeting_data e = (true, missing).
Proof.
  intros F. rewrite <- validate_meeting_data_fst in F.
  destruct (validate_meeting_data e) as [ok m]. simpl in F. subst. eauto.
Qed.

Lemma save_meeting_dispatch (ob : Outbox) (stamp now conv : string)
    (summ : Action -> string) (s : State) :
  intent s = Some "schedule_meeting" ->
  env_save (outbox_env ob stamp now conv summ)
    {| a_type := intent s; a_entities := entities s; a_timestamp := now;
       a_conversation_id := conv |}
  = save_meeting_action (entities s) ob stamp.
Proof. intros I. simpl. unfold save_action_to_outbox. simpl. rewrite I. reflexivity. Qed.

(** X4: a ready meeting whose title, date and time are strings (and
    whose location and description, when set, are strings) is saved by
    the outbox in the same call, when the directory and the file can be
    written: the file is [meeting_<safe title>_<stamp>.json] in the
    outbox directory, the session is closed and the history kept. *)
Theorem X_ready_meeting_saved (ob : Outbox) (stamp now conv : string)
    (summ : Action -> string) (s : State) (title date time : string) :
  is_ready_for_execution s = POk true -> intent s = Some "schedule_meeting" ->
  entities s !! "title" = Some (VStr title) ->
  entities s !! "date" = Some (VStr date) ->
  entities s !! "time" = Some (VStr time) ->
  (forall v, entities s !! "location" = Some v -> truthy v = true -> exists x, v = VStr x) ->
  (forall v, entities s !! "description" = Some v -> truthy v = true -> exists x, v = VStr x) ->
  ob_mkdir ob = IOOk -> ob_write ob = IOOk ->
  let fn := "meeting_" ++ safe_name title ++ "_" ++ stamp ++ ".json" in
  exists s' sm,
    handle_action_execution (outbox_env ob stamp now conv summ) s
    = (s', POk (Some (ExecSaved fn (os_path_join (ob_dir ob) fn) sm)))
    /\ is_ready_for_execution s' = POk false /\ history s' = history s.
Proof.
  intros R I Ht Hd Htm Hl Hds Hm Hw fn.
  destruct (is_ready_meeting_filled s R I) as (F & _ & _).
  rewrite (handle_ready _ s R). cbv zeta.
  change (env_now (outbox_env ob stamp now conv summ)) with now.
  change (env_conversation_id (outbox_env ob stamp now conv summ)) with conv.
  rewrite (save_meeting_dispatch ob stamp now conv summ s I).
  unfold save_meeting_action.
  destruct (validate_meeting_ok _ F) as [m ->]. simpl negb. cbv iota.
  rewrite Hm, (get_strip_str _ _ _ _ Ht), (get_strip_str _ _ _ _ Hd),
    (get_strip_str _ _ _ _ Htm), (get_strip_if_set_ok _ _ Hl),
    (get_strip_if_set_ok _ _ Hds), Ht, Hw.
  eexists; eexists. split; [reflexivity|]. split; reflexivity.
Qed.

Lemma X_ready_meeting_saved_witness :
  exists s' sm,
    handle_action_execution
      (outbox_env (mkOutbox "outbox" IOOk IOOk) "20261016_090000"
         "2026-10-16T09:00:00" "conv_1" (fun _ => "meeting with Sara"))
      state_after_failed_save
    = (s', POk (Some (ExecSaved
                   ("meeting_" ++ safe_name "meeting with Sara" ++ "_" ++ "20261016_090000" ++ ".json")
                   (os_path_join "outbox"
                      ("meeting_" ++ safe_name "meeting with Sara" ++ "_" ++ "20261016_090000"
                       ++ ".json")) sm)))
    /\ is_ready_for_execution s' = POk false /\ history s' = history state_after_failed_save.
Proof.
  apply (X_ready_meeting_saved (mkOutbox "outbox" IOOk IOOk) "20261016_090000"
           "2026-10-16T09:00:00" "conv_1" (fun _ => "meeting with Sara")
           state_after_failed_save "meeting with Sara" "tomorrow" "3pm");
    try (vm_compute; reflexivity);
    intros v Hv; vm_compute in Hv; discriminate.
Defined.

(** X5: a ready meeting whose title is not a string (a number, a list,
    a boolean) passes the readiness check and the outbox's validation,
    but its save fails at every attempt and the state is unchanged: with
    the directory's error when the outbox directory cannot be created,
    and otherwise because [.strip()] on the title raises. *)
Theorem X_ready_meeting_nonstring_title_fails (ob : Outbox) (stamp now conv : string)
    (summ : Action -> string) (s : State) (v : Value) :
  is_ready_for_execution s = POk true -> intent s = Some "schedule_meeting" ->
  entities s !! "title" = Some v -> (forall x, v <> VStr x) ->
  handle_action_execution (outbox_env ob stamp now conv summ) s
  = (s, POk (Some (ExecFailed
          ("Failed to save meeting: "
           ++ match ob_mkdir ob with
              | IOFails m => m
              | IOOk => "'" ++ py_type_name v ++ "' object has no attribute 'strip'"
              end)))).
Proof.
  intros R I Ht Hv.
  destruct (is_ready_meeting_filled s R I) as (F & _ & _).
  rewrite (handle_ready _ s R). cbv zeta.
  change (env_now (outbox_env ob stamp now conv summ)) with now.
  change (env_conversation_id (outbox_env ob stamp now conv summ)) with conv.
  rewrite (save_meeting_dispatch ob stamp now conv summ s I).
  unfold save_meeting_action.
  destruct (validate_meeting_ok _ F) as [m ->]. simpl negb. cbv iota.
  destruct (ob_mkdir ob); [|reflexivity].
  unfold get_strip at 1. rewrite Ht.
  destruct v; try (exfalso; eapply Hv; reflexivity); reflexivity.
Qed.

Lemma X_ready_meeting_nonstring_title_fails_witness :
  let s := {| intent := Some "schedule_meeting";
              entities_obj := EDict (ents [("title", VInt 7); ("date", VStr "tomorrow");
                                           ("time", VStr "3pm")]) [];
              awaiting_confirmation := false; awaiting_email_addresses := false;
              history := []; session_active := true; last_saved_action := None |} in
  handle_action_execution
    (outbox_env (mkOutbox "outbox" IOOk IOOk) "20261016_090000"
       "2026-10-16T09:00:00" "conv_1" (fun _ => "7")) s
  = (s, POk (Some (ExecFailed "Failed to save meeting: 'int' object has no attribute 'strip'"))).
Proof.
  intros s.
  apply (X_ready_meeting_nonstring_title_fails (mkOutbox "outbox" IOOk IOOk)
           _ _ _ _ s (VInt 7)); try (vm_compute; reflexivity); discriminate.
Defined.

Lemma substring0_length (n : nat) (t : string) :
  String.length (substring 0 n t) <= n.
Proof.
  revert t. induction n as [|k IH]; intros [|c t]; simpl; try lia.
  specialize (IH t). lia.
Qed.

Lemma substring0_in (n : nat) (t : string) (c : ascii) :
  In c (list_ascii_of_string (substring 0 n t)) -> In c (list_ascii_of_string t).
Proof.
  revert t. induction n as [|k IH]; intros [|d t]; simpl; try tauto.
  intros [<-|H]; [left; reflexivity|right; apply IH; exact H].
Qed.

Lemma str_map_in (f : ascii -> ascii) (t : string) (c : ascii) :
  In c (list_ascii_of_string (str_map f t)) -> exists d, c = f d.
Proof.
  induction t as [|d r IH]; simpl; [tauto|].
  intros [<-|H]; [eauto|auto].
Qed.

Lemma safe_char_idem (c : ascii) : safe_char (safe_char c) = safe_char c.
Proof.
  unfold safe_char.
  destruct (is_word c || (c =? "-")%char || (c =? "_")%char || (c =? ".")%char) eqn:E.
  - rewrite E. reflexivity.
  - reflexivity.
Qed.

(** X6: the name part of an outbox file name has at most 20
    characters, each a word character, ['-'], ['_'] or ['.']. *)
Theorem X_safe_name_shape (name : string) :
  String.length (safe_name name) <= 20
  /\ forall c, In c (list_ascii_of_string (safe_name name)) -> safe_char c = c.
Proof.
  unfold safe_name. split; [apply substring0_length|].
  intros c H. apply substring0_in, str_map_in in H as [d ->].
  apply safe_char_idem.
Qed.

(** A turn that asks for e-mail addresses: the [email_address_request]
    kind, or a new [send_email] intent reporting [email_addresses]
    missing while a meeting is under way. *)
Lemma update_email_request_meeting (s : State) (t : Turn) (u : string) :
  intent s = Some "schedule_meeting" ->
  (t_action_type t = Some "email_address_request"
   \/ (t_action_type t = Some "new_intent" /\ t_intent t = Some "send_email"
       /\ py_in "email_addresses" (default (VList []) (t_missing_entities t)) = POk true)) ->
  update_state_from_llm_response s t u
  = (set_awaiting_confirmation false (set_awaiting_email_addresses true s), POk tt).
Proof.
  intros I [Ha | (Ha & Hi & Hm)]; unfold update_state_from_llm_response; rewrite Ha; simpl.
  - reflexivity.
  - rewrite Hi, I. simpl. rewrite Hm. reflexivity.
Qed.

(** X7: while a complete meeting waits for the user's confirmation, a
    turn that asks for e-mail addresses (an [email_address_request], or
    a switch to [send_email] reporting the addresses missing) clears the
    confirmation flag, and the meeting is handed to the outbox in that
    same call, without any confirmation. *)
Theorem X_email_request_executes_pending_meeting (env : Env) (s : State) (t : Turn)
    (u : string) :
  intent s = Some "schedule_meeting" -> session_active s = true ->
  forallb (field_filled (entities s)) meeting_fields = true ->
  (t_action_type t = Some "email_address_request"
   \/ (t_action_type t = Some "new_intent" /\ t_intent t = Some "send_email"
       /\ py_in "email_addresses" (default (VList []) (t_missing_entities t)) = POk true)) ->
  t_response t <> None ->
  let a := {| a_type := Some "schedule_meeting"; a_entities := entities s;
              a_timestamp := env_now env;
              a_conversation_id := env_conversation_id env |} in
  reply_execution (snd (process_message env (Returned t) s u))
  = Some (match env_save env a with
          | SaveOk fn fp => ExecSaved fn fp (env_summary env a)
          | SaveErr err => ExecFailed err
          end).
Proof.
  intros I S F T Hr a. rewrite process_message_returned.
  rewrite (update_email_request_meeting s t u I T). cbv beta iota.
  assert (R : is_ready_for_execution
                (set_awaiting_confirmation false (set_awaiting_email_addresses true s))
              = POk true).
  { unfold is_ready_for_execution. simpl. rewrite S, I. simpl.
    unfold meeting_fields, entities in *. simpl in *.
    destruct (entities_obj s) as [m o|v]; [|discriminate].
    simpl. rewrite F. reflexivity. }
  rewrite (handle_ready env _ R). cbv zeta.
  change (entities (set_awaiting_confirmation false (set_awaiting_email_addresses true s)))
    with (entities s).
  change (intent (set_awaiting_confirmation false (set_awaiting_email_addresses true s)))
    with (intent s).
  rewrite I. fold a. destruct (t_response t) as [r|]; [|congruence].
  destruct (env_save env a); reflexivity.
Qed.

Lemma X_email_request_executes_pending_meeting_witness :
  reply_execution (snd (process_message env_saved (Returned turn_ask_addresses)
                          state_pending "and email them"))
  = Some (ExecSaved "meeting_x.json" "outbox/meeting_x.json" "meeting with Sara").
Proof.
  apply (X_email_request_executes_pending_meeting env_saved state_pending
           turn_ask_addresses "and email them"); try reflexivity.
  - left. reflexivity.
  - discriminate.
Defined.

(** The transition on a turn of kind chitchat, cancellation or one the
    manager does not know returns normally and leaves a state that is not
    ready, when the state before was not. *)
Lemma update_other_not_ready (s : State) (t : Turn) (u : string) :
  is_ready_for_execution s = POk false ->
  ~ In (default "chitchat" (t_action_type t))
       ["new_intent"; "correction"; "confirmation"; "email_address_request"] ->
  exists s1, update_state_from_llm_response s t u = (s1, POk tt)
             /\ is_ready_for_execution s1 = POk false.
Proof.
  intros R N. unfold update_state_from_llm_response.
  destruct (String.eqb (default "chitchat" (t_action_type t)) "new_intent") eqn:E1;
    [apply String.eqb_eq in E1; exfalso; apply N; rewrite E1; simpl; tauto|].
  destruct (String.eqb (default "chitchat" (t_action_type t)) "correction") eqn:E2;
    [apply String.eqb_eq in E2; exfalso; apply N; rewrite E2; simpl; tauto|].
  destruct (String.eqb (default "chitchat" (t_action_type t)) "confirmation") eqn:E3;
    [apply String.eqb_eq in E3; exfalso; apply N; rewrite E3; simpl; tauto|].
  destruct (String.eqb (default "chitchat" (t_action_type t)) "cancellation");
    [eexists; split; reflexivity|].
  destruct (String.eqb (default "chitchat" (t_action_type t)) "email_address_request") eqn:E5;
    [apply String.eqb_eq in E5; exfalso; apply N; rewrite E5; simpl; tauto|].
  destruct (String.eqb (default "chitchat" (t_action_type t)) "chitchat");
    [|eexists; split; [reflexivity|exact R]].
  destruct (session_active s) eqn:S; eexists; (split; [reflexivity|]); [exact R|].
  unfold is_ready_for_execution. simpl. rewrite S. reflexivity.
Qed.

(** X8: a turn of kind chitchat, cancellation or any kind the manager
    does not know never makes a state ready, so it never executes. *)
Theorem X_other_turns_never_open_gate (env : Env) (s : State) (t : Turn) (u : string) :
  is_ready_for_execution s = POk false ->
  ~ In (default "chitchat" (t_action_type t))
       ["new_intent"; "correction"; "confirmation"; "email_address_request"] ->
  is_ready_for_execution (fst (process_message env (Returned t) s u)) = POk false
  /\ reply_execution (snd (process_message env (Returned t) s u)) = None.
Proof.
  intros R N. destruct (update_other_not_ready s t u R N) as (s1 & U & R1).
  rewrite process_message_returned, U. cbv beta iota.
  rewrite (handle_not_ready env _ R1). cbv beta iota.
  destruct (t_response t); split; try reflexivity; exact R1.
Qed.

Lemma X_other_turns_never_open_gate_witness :
  is_ready_for_execution
    (fst (process_message env_saved (Returned (mk_turn "chitchat" "chitchat" [] "Hi!"
                                                 None None None))
            state_pending "hello")) = POk false
  /\ reply_execution
       (snd (process_message env_saved (Returned (mk_turn "chitchat" "chitchat" [] "Hi!"
                                                    None None None))
               state_pending "hello")) = None.
Proof.
  apply X_other_turns_never_open_gate; [reflexivity|].
  simpl. intros H. repeat destruct H as [H|H]; try discriminate; exact H.
Defined.

(** X9: a cancellation, or a confirmation turn whose [ready_to_execute]
    is false or absent, resets the whole state, history included: after
    the call the history holds this exchange alone, whatever was there
    before. *)
Theorem X_reset_turn_drops_history (env : Env) (s : State) (t : Turn) (u : string) :
  t_action_type t = Some "cancellation"
  \/ (t_action_type t = Some "confirmation" /\ default false (t_ready_to_execute t) = false) ->
  let res := process_message env (Returned t) s u in
  fst res = add_to_history reset_state u (reply_text (snd res)) (env_now env)
  /\ history (fst res) = [mkEntry u (reply_text (snd res)) (env_now env) (EDict ∅ [])].
Proof.
  intros H res.
  assert (U : update_state_from_llm_response s t u = (reset_state, POk tt)).
  { unfold update_state_from_llm_response.
    destruct H as [H | [H Hr]]; rewrite H; simpl; [reflexivity|]. rewrite Hr. reflexivity. }
  unfold res. rewrite process_message_returned, U. cbv beta iota.
  rewrite (handle_not_ready env _ is_ready_reset_state). cbv beta iota.
  destruct (t_response t) eqn:Er; cbn [fst snd reply_text]; rewrite ?Er; split; reflexivity.
Qed.

Lemma X_reset_turn_drops_history_witness :
  history (fst (process_message env_saved
                  (Returned (mk_turn "cancellation" "chitchat" [] "Cancelled." None None None))
                  (add_to_history state_pending "book it" "Shall I?" "t0") "never mind"))
  = [mkEntry "never mind" "Cancelled." "2026-10-16T09:00:00" (EDict ∅ [])].
Proof.
  apply (X_reset_turn_drops_history env_saved
           (add_to_history state_pending "book it" "Shall I?" "t0")
           (mk_turn "cancellation" "chitchat" [] "Cancelled." None None None) "never mind").
  left. reflexivity.
Defined.

Lemma is_ready_parts (s : State) :
  is_ready_for_execution s = POk true ->
  has_required_entities s = POk true /\ awaiting_confirmation s = false
  /\ session_active s = true /\ exists m o, entities_obj s = EDict m o.
Proof.
  unfold is_ready_for_execution, has_required_entities.
  destruct (session_active s); [|discriminate].
  destruct (opt_str_eqb (intent s) "schedule_meeting");
    [|destruct (opt_str_eqb (intent s) "send_email")]; simpl; try discriminate;
    destruct (entities_obj s) as [m o|v]; simpl; try discriminate;
    intros R; injection R as R; apply andb_true_iff in R as [R1 R2];
    apply negb_true_iff in R2; rewrite ?R1; repeat split; eauto.
Qed.

Lemma details_part_shape (e : Entities) (det : list DisplayPart) :
  details_part e = POk det -> det = [] \/ exists d, det = [PDetails d].
Proof.
  unfold details_part. destruct e as [m o|v].
  - destruct (Nat.eqb _ 0); [intros H; injection H as <-; auto|].
    destruct (List.find _ o) as [[k x]|]; [discriminate|].
    intros H; injection H as <-; eauto.
  - destruct (truthy v); [discriminate|]. intros H; injection H as <-; auto.
Qed.

Lemma display_status_in (s : State) (ps : list DisplayPart) (st : StatusLine) :
  get_state_display s = POk (DParts ps) ->
  In (PStatus st) ps <-> status_line s = POk (Some st).
Proof.
  unfold get_state_display. destruct (_ && _); [discriminate|].
  destruct (details_part (entities_obj s)) as [det|e] eqn:D; [|discriminate].
  destruct (status_line s) as [st0|e]; [|discriminate].
  intros E. injection E as <-.
  destruct (details_part_shape _ _ D) as [->|[d ->]];
    rewrite !in_app_iff;
    destruct (opt_str_truthy (intent s)), st0 as [st'|], (last_saved_action s), (history s);
    simpl; split; intros H;
    repeat match goal with
           | H : _ \/ _ |- _ => destruct H as [H|H]
           | H : False |- _ => destruct H
           | H : PStatus _ = PStatus _ |- _ => injection H as ->
           | H : POk _ = POk _ |- _ => injection H as ->
           | H : Some _ = Some _ |- _ => injection H as ->
           end;
    try discriminate; auto.
Qed.

(** The entity lines build without raising exactly when no entry with a
    key that is not a string holds a truthy value (the entities being a
    dict). *)
Lemma details_part_dict (m : gmap string Value) (o : list (Value * Value)) :
  (exists d, details_part (EDict m o) = POk d)
  <-> Forall (fun kv => truthy kv.2 = false) o.
Proof.
  unfold details_part. split.
  - intros [d D]. destruct (Nat.eqb (size m + length o) 0) eqn:Z.
    + apply Nat.eqb_eq in Z. destruct o; [constructor|simpl in Z; lia].
    + destruct (List.find (fun kv => truthy kv.2) o) as [[k x]|] eqn:Fd; [discriminate|].
      apply List.Forall_forall. intros kv Hin. exact (List.find_none _ _ Fd kv Hin).
  - intros F. destruct (Nat.eqb _ 0); [eauto|].
    destruct (List.find (fun kv => truthy kv.2) o) as [[k x]|] eqn:Fd; [|eauto].
    apply List.find_some in Fd as [Hin T].
    rewrite List.Forall_forall in F. rewrite (F _ Hin) in T. discriminate.
Qed.

(** X10: the display shows "Ready to execute" exactly when the state is
    ready for execution, not waiting for e-mail addresses, and its
    entity lines can be built (no entry with a key that is not a string
    holds a truthy value). *)
Theorem X_display_ready_iff (s : State) :
  (exists ps, get_state_display s = POk (DParts ps) /\ In (PStatus StReady) ps)
  <-> is_ready_for_execution s = POk true /\ awaiting_email_addresses s = false
      /\ (forall m o, entities_obj s = EDict m o -> Forall (fun kv => truthy kv.2 = false) o).
Proof.
  split.
  - intros (ps & E & H). pose proof E as E0.
    apply (display_status_in s ps StReady E) in H.
    assert (F : forall m o, entities_obj s = EDict m o ->
                            Forall (fun kv => truthy kv.2 = false) o).
    { intros m o Eo. apply details_part_dict with (m := m).
      unfold get_state_display in E0. destruct (_ && _); [discriminate|].
      rewrite Eo in E0. destruct (details_part (EDict m o)); [eauto|discriminate]. }
    unfold status_line in H.
    destruct (awaiting_confirmation s); [discriminate|].
    destruct (awaiting_email_addresses s); [discriminate|].
    destruct (has_required_entities s) as [[|]|e]; [|destruct (get_missing_entities s)|];
      try discriminate.
    destruct (session_active s); [|discriminate].
    destruct (is_ready_for_execution s) as [[|]|e]; try discriminate. auto.
  - intros (R & W & F). destruct (is_ready_parts s R) as (Hr & A & S & m & o & Eo).
    destruct (proj2 (details_part_dict m o) (F m o Eo)) as [d D].
    assert (St : status_line s = POk (Some StReady)).
    { unfold status_line. rewrite A, W, Hr, S, R. reflexivity. }
    unfold get_state_display. rewrite S. cbn [negb andb].
    rewrite Eo, D, St. eexists. split; [reflexivity|].
    rewrite !in_app_iff. right; right; left. simpl. auto.
Qed.

Lemma X_display_ready_iff_witness :
  exists ps, get_state_display state_after_failed_save = POk (DParts ps)
             /\ In (PStatus StReady) ps.
Proof.
  apply X_display_ready_iff. split; [vm_compute; reflexivity|].
  split; [vm_compute; reflexivity|].
  intros m o Eo. vm_compute in Eo. injection Eo as _ <-. constructor.
Defined.

(** X11: when the display asks for more information, the list of
    missing fields it shows is never empty. *)
Theorem X_display_need_info_nonempty (s : State) (ps : list DisplayPart) (m : list string) :
  get_state_display s = POk (DParts ps) -> In (PStatus (StNeedInfo m)) ps -> m <> [].
Proof.
  intros E H. apply (display_status_in s ps _ E) in H. unfold status_line in H.
  destruct (awaiting_confirmation s); [discriminate|].
  destruct (awaiting_email_addresses s); [discriminate|].
  pose proof (has_required_missing s) as Hm.
  destruct (has_required_entities s) as [[|]|e1]; [|destruct (get_missing_entities s) as [l|e2]|];
    try discriminate.
  - destruct (session_active s); [destruct (is_ready_for_execution s) as [[|]|]|]; discriminate.
  - injection H as <-. intros Hl. subst. discriminate (proj2 Hm eq_refl).
Qed.

Lemma X_display_need_info_nonempty_witness :
  get_state_display (fst (process_message env_saved
     (Returned (mk_turn "new_intent" "schedule_meeting" [("title", VStr "sync")] "When?"
                  None None None)) reset_state "book a sync"))
  = POk (DParts [PIntent "schedule_meeting";
            PDetails (filter (fun kv => truthy kv.2 = true) (ents [("title", VStr "sync")]));
            PStatus (StNeedInfo ["date"; "time"]); PExchanges 1])
  /\ ["date"; "time"] <> [].
Proof.
  assert (E : get_state_display (fst (process_message env_saved
     (Returned (mk_turn "new_intent" "schedule_meeting" [("title", VStr "sync")] "When?"
                  None None None)) reset_state "book a sync"))
  = POk (DParts [PIntent "schedule_meeting";
            PDetails (filter (fun kv => truthy kv.2 = true) (ents [("title", VStr "sync")]));
            PStatus (StNeedInfo ["date"; "time"]); PExchanges 1])) by reflexivity.
  split; [exact E|].
  apply (X_display_need_info_nonempty _ _ _ E). simpl. tauto.
Defined.

(** X12: the history handed to the classifier is the last five entries
    of the session's history: a suffix of it, at most five long, and the
    whole history when it is that short. *)
Theorem X_context_history_last_five (s : State) :
  let ch := c_history (build_context_for_llm s) in
  length ch <= 5
  /\ (exists pre, history s = (pre ++ ch)%list)
  /\ (length (history s) <= 5 -> ch = history s).
Proof.
  simpl. destruct (history s) as [|e h] eqn:E.
  - simpl. split; [lia|]. split; [exists []; reflexivity|auto].
  - unfold py_last. rewrite <- E. split; [|split].
    + rewrite length_drop. lia.
    + exists (take (length (history s) - 5) (history s)). symmetry. apply take_drop.
    + intros L. replace (length (history s) - 5) with 0 by lia. reflexivity.
Qed.

Lemma X_context_history_last_five_witness :
  c_history (build_context_for_llm (add_to_history state_pending "book it" "Shall I?" "t0"))
  = history (add_to_history state_pending "book it" "Shall I?" "t0").
Proof.
  apply (X_context_history_last_five (add_to_history state_pending "book it" "Shall I?" "t0")).
  simpl. lia.
Defined.

Lemma lstrip_list_idem (l : list ascii) : lstrip_list (lstrip_list l) = lstrip_list l.
Proof.
  induction l as [|c r IH]; simpl; [reflexivity|].
  destruct (is_py_space c) eqn:E; [exact IH|]. simpl. rewrite E. reflexivity.
Qed.

Lemma lstrip_list_shape (l : list ascii) :
  lstrip_list l = [] \/ exists c r, lstrip_list l = c :: r /\ is_py_space c = false.
Proof.
  induction l as [|c r IH]; simpl; [auto|].
  destruct (is_py_space c) eqn:E; [exact IH|]. right. eauto.
Qed.

Lemma lstrip_list_snoc (l : list ascii) (c : ascii) :
  is_py_space c = false -> exists l', lstrip_list (l ++ [c]) = (l' ++ [c])%list.
Proof.
  intros Hc. induction l as [|d r IH]; simpl.
  - rewrite Hc. exists []. reflexivity.
  - destruct (is_py_space d); [exact IH|]. exists (d :: r). reflexivity.
Qed.

Lemma rstrip_list_cons (c : ascii) (r : list ascii) :
  is_py_space c = false -> exists r', rstrip_list (c :: r) = c :: r'.
Proof.
  intros Hc. unfold rstrip_list. simpl.
  destruct (lstrip_list_snoc (rev r) c Hc) as [l' ->].
  rewrite rev_app_distr. simpl. eauto.
Qed.

Lemma rstrip_list_idem (l : list ascii) : rstrip_list (rstrip_list l) = rstrip_list l.
Proof.
  unfold rstrip_list. rewrite rev_involutive, lstrip_list_idem. reflexivity.
Qed.

Lemma py_strip_idem (s : string) : py_strip (py_strip s) = py_strip s.
Proof.
  unfold py_strip. rewrite list_ascii_of_string_of_list_ascii. f_equal.
  destruct (lstrip_list_shape (list_ascii_of_string s)) as [-> | (c & r & E & Hc)].
  - reflexivity.
  - rewrite E. destruct (rstrip_list_cons c r Hc) as [r' E'].
    rewrite E'. simpl. rewrite Hc. rewrite <- E'. apply rstrip_list_idem.
Qed.

Lemma history_push_last (h : list HistoryEntry) (e : HistoryEntry) :
  last (history_push h e) = Some e.
Proof.
  rewrite history_push_drop.
  assert (L : length h + 1 - max_history < length (h ++ [e])).
  { rewrite length_app. simpl. unfold max_history. lia. }
  revert L. generalize (length h + 1 - max_history). intros k.
  assert (G : forall (l : list HistoryEntry) k, k < length (l ++ [e]) ->
              last (drop k (l ++ [e])) = Some e).
  { induction l as [|x l IH]; intros [|k'] Hk; simpl in *.
    - reflexivity.
    - lia.
    - rewrite last_cons, last_snoc. reflexivity.
    - apply IH. lia. }
  apply G.
Qed.

(** X13: the UI never hands a blank message to the manager, whose
    state and history stay as they were; any other message reaches the
    manager stripped, is recorded once in the chat, and its history
    entry holds the stripped text, which has no surrounding
    whitespace. *)
Theorem X_main_strips_and_skips_blank (env : Env) (o : ClassifierOutcome) (s : State)
    (chat : list (string * string)) (m : string) :
  let res := main_process_message env o s chat m in
  (py_strip m = "" -> res = (s, chat))
  /\ (py_strip m <> "" ->
      length res.2 = S (length chat)
      /\ exists e, last (history res.1) = Some e
                   /\ user_input e = py_strip m
                   /\ py_strip (user_input e) = user_input e).
Proof.
  unfold main_process_message. split.
  - intros E. rewrite E. reflexivity.
  - intros N. destruct (String.eqb (py_strip m) "") eqn:E;
      [apply String.eqb_eq in E; contradiction|].
    pose proof (process_message_history env o s (py_strip m)) as [snap H].
    destruct (process_message env o s (py_strip m)) as [s' r]. simpl in *.
    split; [rewrite length_app; simpl; lia|].
    rewrite H, history_push_last. eexists. split; [reflexivity|].
    simpl. split; [reflexivity|apply py_strip_idem].
Qed.

Lemma X_main_strips_and_skips_blank_witness :
  main_process_message env_saved (Returned turn_book_meeting) state_pending [] "  "
  = (state_pending, [])
  /\ length (main_process_message env_saved (Returned turn_book_meeting)
              state_pending [] " hi ").2 = 1.
Proof.
  split.
  - apply (proj1 (X_main_strips_and_skips_blank env_saved (Returned turn_book_meeting)
                    state_pending [] "  ")). reflexivity.
  - apply (proj2 (X_main_strips_and_skips_blank env_saved (Returned turn_book_meeting)
                    state_pending [] " hi ")). vm_compute. discriminate.
Defined.

Lemma find_comment_ge (i : nat) (p : option ascii) (b : bool) (q : option ascii)
    (cs : list ascii) (j : nat) :
  find_comment i p b q cs = Some j -> i <= j.
Proof.
  revert i p b q. induction cs as [|c r IH]; intros i p b q; simpl; [discriminate|].
  repeat case_match; intros Hf;
    try (injection Hf as <-; lia); apply IH in Hf; lia.
Qed.

Lemma head_take_some (k : nat) (r : list ascii) (d : ascii) :
  match take k r with d' :: _ => Ascii.eqb d' d | [] => false end = true ->
  match r with d' :: _ => Ascii.eqb d' d | [] => false end = true.
Proof. destruct k, r; simpl; auto. discriminate. Qed.

(** Scanning a prefix that stops before the first comment finds none. *)
Lemma find_comment_take (cs : list ascii) :
  forall i p b q j k, find_comment i p b q cs = Some j -> k <= j - i ->
  find_comment i p b q (take k cs) = None.
Proof.
  induction cs as [|c r IH]; intros i p b q j k H Hk; [discriminate|].
  destruct k as [|k]; [reflexivity|].
  pose proof (find_comment_ge _ _ _ _ _ _ H) as Hge.
  rewrite firstn_cons. simpl in H |- *.
  destruct ((Ascii.eqb c dquote || Ascii.eqb c squote)
            && match p with None => true | Some p => negb (Ascii.eqb p backslash) end).
  - destruct (negb b); [|destruct (match q with Some q => Ascii.eqb c q | None => false end)];
      (eapply IH; [exact H|]); apply find_comment_ge in H; lia.
  - destruct (Ascii.eqb c slash
              && match r with d :: _ => Ascii.eqb d slash | [] => false end
              && negb b) eqn:E.
    + injection H as <-. lia.
    + assert (E' : (Ascii.eqb c slash
                    && match take k r with d :: _ => Ascii.eqb d slash | [] => false end
                    && negb b) = false).
      { apply not_true_iff_false. intros C.
        apply andb_true_iff in C as [C1 C3]. apply andb_true_iff in C1 as [C1 C2].
        apply head_take_some in C2. rewrite C1, C2, C3 in E. discriminate E. }
      rewrite E'. eapply IH; [exact H|]. apply find_comment_ge in H. lia.
Qed.

Lemma lstrip_list_suffix (l : list ascii) : exists pre, l = (pre ++ lstrip_list l)%list.
Proof.
  induction l as [|c r [pre IH]]; simpl; [exists []; reflexivity|].
  destruct (is_py_space c); [exists (c :: pre); simpl; congruence|exists []; reflexivity].
Qed.

Lemma rstrip_list_prefix (l : list ascii) : exists k, rstrip_list l = take k l.
Proof.
  destruct (lstrip_list_suffix (rev l)) as [pre E].
  exists (length (rstrip_list l)).
  assert (L : l = (rstrip_list l ++ rev pre)%list).
  { unfold rstrip_list. rewrite <- rev_app_distr, <- E, rev_involutive. reflexivity. }
  transitivity (take (length (rstrip_list l)) (rstrip_list l ++ rev pre)).
  - rewrite take_app_length. reflexivity.
  - rewrite <- L. reflexivity.
Qed.

Lemma strip_line_comment_prefix (line : list ascii) :
  strip_line_comment line = line
  \/ exists i k, find_comment 0 None false None line = Some i /\ k <= i
                 /\ strip_line_comment line = take k line.
Proof.
  unfold strip_line_comment. destruct (has_double_slash line); [|auto].
  destruct (find_comment 0 None false None line) as [i|] eqn:F; [|auto].
  right. destruct (rstrip_list_prefix (take i line)) as [k E]. rewrite E, take_take.
  exists i, (Nat.min k i). split; [reflexivity|]. split; [lia|reflexivity].
Qed.

Lemma strip_line_comment_idem (line : list ascii) :
  strip_line_comment (strip_line_comment line) = strip_line_comment line.
Proof.
  destruct (strip_line_comment_prefix line) as [E | (i & k & F & Hk & E)].
  - rewrite !E. reflexivity.
  - rewrite E. unfold strip_line_comment at 1.
    destruct (has_double_slash (take k line)); [|reflexivity].
    rewrite (find_comment_take line 0 None false None i k F); [reflexivity|lia].
Qed.

Lemma split_lines_acc_app (cur l rest : list ascii) :
  ~ In "010"%char l ->
  split_lines_acc cur (l ++ rest) = split_lines_acc (rev l ++ cur) rest.
Proof.
  revert cur. induction l as [|c l IH]; intros cur N; simpl; [reflexivity|].
  destruct (Ascii.eqb c "010"%char) eqn:E.
  - apply Ascii.eqb_eq in E. subst. exfalso. apply N. left. reflexivity.
  - rewrite IH; [|intros H; apply N; right; exact H]. rewrite <- app_assoc. reflexivity.
Qed.

Lemma split_join_lines (ls : list (list ascii)) :
  ls <> [] -> Forall (fun l => ~ In "010"%char l) ls -> split_lines (join_lines ls) = ls.
Proof.
  unfold split_lines. induction ls as [|l ls IH]; intros NE F; [congruence|].
  inversion F as [|? ? Hl Hr]; subst.
  destruct ls as [|l' ls].
  - simpl. rewrite <- (app_nil_r l) at 1. rewrite split_lines_acc_app by exact Hl.
    simpl. rewrite app_nil_r, rev_involutive. reflexivity.
  - change (join_lines (l :: l' :: ls)) with (l ++ "010"%char :: join_lines (l' :: ls))%list.
    rewrite split_lines_acc_app by exact Hl.
    change (split_lines_acc (rev l ++ []) ("010"%char :: join_lines (l' :: ls)))
      with (rev (rev l ++ []) :: split_lines_acc [] (join_lines (l' :: ls))).
    rewrite app_nil_r, rev_involutive.
    rewrite IH; [reflexivity|discriminate|exact Hr].
Qed.

Lemma split_lines_acc_no_newline (cur cs : list ascii) :
  ~ In "010"%char cur ->
  Forall (fun l => ~ In "010"%char l) (split_lines_acc cur cs).
Proof.
  revert cur. induction cs as [|c r IH]; intros cur N; cbn [split_lines_acc].
  - constructor; [rewrite <- in_rev; exact N|constructor].
  - destruct (Ascii.eqb c "010"%char) eqn:E.
    + constructor; [rewrite <- in_rev; exact N|]. apply IH. simpl. tauto.
    + apply IH. simpl. intros [Hc|H]; [subst c; rewrite Ascii.eqb_refl in E; discriminate|auto].
Qed.

Lemma split_lines_acc_nonempty (cur cs : list ascii) : split_lines_acc cur cs <> [].
Proof.
  revert cur. induction cs as [|c r IH]; intros cur; cbn [split_lines_acc]; [discriminate|].
  destruct (Ascii.eqb c "010"%char); [discriminate|apply IH].
Qed.

Lemma take_in {A} (k : nat) (l : list A) (x : A) : In x (take k l) -> In x l.
Proof.
  revert l. induction k as [|k IH]; intros [|y l]; simpl; try tauto.
  intros [<-|H]; [left; reflexivity|right; apply IH; exact H].
Qed.

Lemma strip_line_comment_no_newline (line : list ascii) :
  ~ In "010"%char line -> ~ In "010"%char (strip_line_comment line).
Proof.
  intros N H. destruct (strip_line_comment_prefix line) as [E | (i & k & _ & _ & E)];
    rewrite E in H; [exact (N H)|]. apply N. eapply take_in. exact H.
Qed.

(** X14: the comment pass of [_parse_response] keeps every line
    without [//] as it is, cuts the others to a prefix, and applied to
    its own output changes nothing. *)
Theorem X_comment_removal_prefix_idempotent (text line : list ascii) :
  (has_double_slash line = false -> strip_line_comment line = line)
  /\ (exists k, strip_line_comment line = take k line)
  /\ remove_comments (remove_comments text) = remove_comments text.
Proof.
  split; [|split].
  - unfold strip_line_comment. intros ->. reflexivity.
  - destruct (strip_line_comment_prefix line) as [E | (i & k & _ & _ & E)].
    + exists (length line). rewrite E, take_ge; [reflexivity|lia].
    + eauto.
  - unfold remove_comments at 1 2. unfold remove_comments.
    assert (F : Forall (fun l => ~ In "010"%char l) (split_lines text))
      by (apply split_lines_acc_no_newline; simpl; tauto).
    rewrite split_join_lines.
    + rewrite map_map. f_equal. apply map_ext_in. intros l _.
      apply strip_line_comment_idem.
    + intros H. apply map_eq_nil in H. apply (split_lines_acc_nonempty [] text H).
    + apply Forall_map. eapply Forall_impl; [exact F|].
      intros l. apply strip_line_comment_no_newline.
Qed.

Lemma X_comment_removal_prefix_idempotent_witness :
  strip_line_comment (list_ascii_of_string "{a: [1, 2]}")
  = list_ascii_of_string "{a: [1, 2]}".
Proof.
  apply (proj1 (X_comment_removal_prefix_idempotent [] (list_ascii_of_string "{a: [1, 2]}"))).
  reflexivity.
Defined.

Lemma close_after_spaces_split (r g rest : list ascii) :
  close_after_spaces r = Some (g, rest) ->
  r = (g ++ rest)%list /\ Forall (fun c => Ascii.eqb c "," = false) g.
Proof.
  revert g rest. induction r as [|c r IH]; intros g rest; simpl; [discriminate|].
  destruct (is_py_space c) eqn:Sp.
  - destruct (close_after_spaces r) as [[g' rest']|] eqn:E; [|discriminate].
    intros H. injection H as <- <-. destruct (IH g' rest' eq_refl) as [-> F].
    split; [reflexivity|]. constructor; [|exact F].
    destruct (Ascii.eqb c ",") eqn:C; [|reflexivity].
    apply Ascii.eqb_eq in C. subst c. discriminate Sp.
  - destruct (Ascii.eqb c "}" || Ascii.eqb c "]") eqn:B; [|discriminate].
    intros H. injection H as <- <-. split; [reflexivity|].
    constructor; [|constructor].
    destruct (Ascii.eqb c ",") eqn:C; [|reflexivity].
    apply Ascii.eqb_eq in C. subst c. discriminate B.
Qed.

Lemma drop_commas_app_no_comma (g rest : list ascii) :
  Forall (fun c => Ascii.eqb c "," = false) g ->
  drop_commas_before_close (g ++ rest) = (g ++ drop_commas_before_close rest)%list.
Proof.
  induction 1 as [|c g Hc F IH]; [reflexivity|].
  simpl. rewrite Hc. simpl. rewrite IH. reflexivity.
Qed.

Lemma remove_trailing_commas_fuel_ref (fuel : nat) (cs : list ascii) :
  length cs <= fuel ->
  remove_trailing_commas_fuel fuel cs = drop_commas_before_close cs.
Proof.
  revert cs. induction fuel as [|f IH]; intros cs L.
  - destruct cs; [reflexivity|simpl in L; lia].
  - destruct cs as [|c r]; [reflexivity|]. simpl in L |- *.
    destruct (Ascii.eqb c ",") eqn:C; simpl.
    + destruct (close_after_spaces r) as [[g rest]|] eqn:E; simpl.
      * destruct (close_after_spaces_split r g rest E) as [-> F].
        rewrite drop_commas_app_no_comma by exact F. f_equal.
        apply IH. rewrite length_app in L. lia.
      * f_equal. apply IH. lia.
    + f_equal. apply IH. lia.
Qed.

(** X15: the trailing-comma pass of [_parse_response] ([re.sub] of
    [,(\s*[}\]])]) removes exactly the commas whose next character other
    than whitespace is a closing brace or bracket, and nothing else. *)
Theorem X_trailing_comma_pass_rule (cs : list ascii) :
  remove_trailing_commas cs = drop_commas_before_close cs.
Proof. apply remove_trailing_commas_fuel_ref. lia. Qed.

Lemma drop_commas_in_suffix (pre x : list ascii) (c : ascii) :
  In c (drop_commas_before_close x) -> In c (drop_commas_before_close (pre ++ x)%list).
Proof.
  induction pre as [|d pre IH]; simpl; [auto|].
  intros H. destruct (_ && _); simpl; auto.
Qed.

(** X16: two commas in a row anywhere in the text always leave a comma
    after the trailing-comma pass: a doubled trailing comma ([",,]"])
    is not repaired, and [json.loads] gets a comma before the bracket. *)
Theorem X_doubled_comma_kept (pre r : list ascii) :
  In ","%char (remove_trailing_commas (pre ++ ","%char :: ","%char :: r)%list).
Proof.
  unfold remove_trailing_commas. rewrite remove_trailing_commas_fuel_ref by lia.
  apply drop_commas_in_suffix.
  simpl. left. reflexivity.
Qed.

(** X17: [get_outbox_stats] never returns statistics: whatever
    [list_saved_actions] returns, iterating that dict gives its keys, and
    [.get] on the first key raises. *)
Theorem X_outbox_stats_always_error (r : ListResult) :
  get_outbox_stats (list_saved_actions_result r)
  = StatsError "'str' object has no attribute 'get'".
Proof. destruct r; reflexivity. Qed.

Lemma client_postprocess_dict (t : Turn) (l : list (string * Value)) :
  turn_entities t = VDict l ->
  client_postprocess t =
    match client_required_fields (t_intent t) with
    | [] => t
    | fields =>
        match List.filter (fun f => negb (get_truthy (dict_of_items l) f)) fields with
        | [] => t
        | missing =>
            {| t_action_type := t_action_type t; t_intent := t_intent t;
               t_entities := t_entities t;
               t_missing_entities := Some (VList (List.map VStr missing));
               t_response := t_response t;
               t_needs_confirmation := t_needs_confirmation t;
               t_ready_to_execute := Some false;
               t_correction_detected := t_correction_detected t |}
        end
    end.
Proof.
  intros E. unfold client_postprocess.
  destruct (client_required_fields (t_intent t)); [reflexivity|]. rewrite E. reflexivity.
Qed.

(** X18: the client's post-processing only ever lowers
    [ready_to_execute] (to [False]), keeps the kind, intent, entities,
    reply, [needs_confirmation] and [correction_detected] of the turn,
    when its entities are a dict or its intent needs no check; when the
    intent needs a check and the entities are not a dict, the turn is
    replaced by the client's error dict.  Applied twice it gives the
    same turn as once. *)
Theorem X_client_postprocess_lowers_only (t : Turn) :
  let t' := client_postprocess t in
  ((client_required_fields (t_intent t) = [] \/ turn_dict t <> None) ->
   (t_ready_to_execute t' = t_ready_to_execute t \/ t_ready_to_execute t' = Some false)
   /\ t_action_type t' = t_action_type t /\ t_intent t' = t_intent t
   /\ t_entities t' = t_entities t /\ t_response t' = t_response t
   /\ t_needs_confirmation t' = t_needs_confirmation t
   /\ t_correction_detected t' = t_correction_detected t)
  /\ (client_required_fields (t_intent t) <> [] -> turn_dict t = None ->
      t' = client_error_turn)
  /\ client_postprocess t' = t'.
Proof.
  cbv zeta.
  assert (D : (exists l, turn_entities t = VDict l)
              \/ (turn_dict t = None
                  /\ client_postprocess t = match client_required_fields (t_intent t) with
                                           | [] => t | _ => client_error_turn end)).
  { unfold turn_dict, client_postprocess.
    destruct (turn_entities t); eauto;
      right; (split; [reflexivity|]); destruct (client_required_fields _); reflexivity. }
  destruct D as [[l E]|[Dn Cp]].
  - rewrite (client_postprocess_dict t l E).
    destruct (client_required_fields (t_intent t)) as [|f fs] eqn:F.
    + split; [auto 10|]. split; [congruence|].
      rewrite (client_postprocess_dict t l E), F. reflexivity.
    + destruct (List.filter _ (f :: fs)) as [|m ms] eqn:M.
      * split; [auto 10|]. split; [unfold turn_dict; rewrite E; discriminate|].
        rewrite (client_postprocess_dict t l E), F, M. reflexivity.
      * split; [intros _; simpl; auto 10|].
        split; [unfold turn_dict; rewrite E; discriminate|].
        erewrite client_postprocess_dict; [|exact E].
        cbn [t_intent]. rewrite F, M. reflexivity.
  - rewrite !Cp. destruct (client_required_fields (t_intent t)) eqn:F.
    + split; [auto 10|]. split; [congruence|]. rewrite Cp. reflexivity.
    + split; [intros [H|H]; congruence|]. split; reflexivity.
Qed.

Lemma dom_plus_dot (cs : list ascii) : dom_plus cs = true -> In "."%char cs.
Proof.
  induction cs as [|c r IH]; simpl; [discriminate|].
  intros H. apply andb_true_iff in H as [_ H]. apply orb_true_iff in H as [H|H].
  - destruct r as [|d r']; [discriminate|]. apply andb_true_iff in H as [H _].
    apply Ascii.eqb_eq in H. subst d. right. left. reflexivity.
  - right. auto.
Qed.

Lemma local_plus_at (cs : list ascii) :
  local_plus cs = true ->
  exists pre post, cs = (pre ++ "@"%char :: post)%list /\ In "."%char post.
Proof.
  induction cs as [|c r IH]; simpl; [discriminate|].
  intros H. apply andb_true_iff in H as [_ H]. apply orb_true_iff in H as [H|H].
  - destruct r as [|a r']; [discriminate|]. apply andb_true_iff in H as [Ha Hd].
    apply Ascii.eqb_eq in Ha. subst a. exists [c], r'. split; [reflexivity|].
    apply dom_plus_dot. exact Hd.
  - destruct (IH H) as (pre & post & -> & D). exists (c :: pre), post. auto.
Qed.

Lemma search_from_at (p : option ascii) (cs : list ascii) :
  search_from p cs = true ->
  exists pre post, cs = (pre ++ "@"%char :: post)%list /\ In "."%char post.
Proof.
  revert p. induction cs as [|c r IH]; intros p; simpl.
  - rewrite andb_false_r. discriminate.
  - intros H. apply orb_true_iff in H as [H|H].
    + apply andb_true_iff in H as [_ H]. apply local_plus_at. exact H.
    + destruct (IH _ H) as (pre & post & -> & D). exists (c :: pre), post. auto.
Qed.

(** X19: a recipient given as one string passes the outbox's address
    check only if it contains an ['@'] followed, later, by a ['.']. *)
Theorem X_string_recipient_needs_at_and_dot (s : string) :
  validate_email_addresses (VStr s) = true ->
  exists pre post, list_ascii_of_string s = (pre ++ "@"%char :: post)%list
                   /\ In "."%char post.
Proof.
  unfold validate_email_addresses. simpl.
  destruct (negb (String.eqb s "")); simpl; [|discriminate].
  apply search_from_at.
Qed.

Lemma X_string_recipient_needs_at_and_dot_witness :
  exists pre post, list_ascii_of_string "bob@example.com"
                   = (pre ++ "@"%char :: post)%list /\ In "."%char post.
Proof. apply X_string_recipient_needs_at_and_dot. vm_compute. reflexivity. Defined.

Lemma validate_list_falsy (l : list Value) :
  l <> [] -> Forall (fun v => truthy v = false) l ->
  validate_email_addresses (VList l) = true.
Proof.
  intros NE F. unfold validate_email_addresses.
  destruct l as [|v l]; [congruence|].
  replace (truthy (VList (v :: l))) with true by reflexivity. cbv iota beta.
  apply forallb_forall.
  intros x Hx. rewrite List.Forall_forall in F. rewrite (F x Hx). reflexivity.
Qed.

(** X20: a recipient list whose entries are all empty (such as
    [[""]] or [[None]]) passes the outbox's address check: the check
    skips empty entries, and nothing is left to fail. *)
Theorem X_empty_entries_pass_address_check (l : list Value) :
  l <> [] -> Forall (fun v => truthy v = false) l ->
  validate_email_addresses (VList l) = true.
Proof. apply validate_list_falsy. Qed.

Lemma X_empty_entries_pass_address_check_witness :
  validate_email_addresses (VList [VStr ""; VNone]) = true.
Proof.
  apply X_empty_entries_pass_address_check; [discriminate|].
  repeat constructor.
Defined.

Lemma get_strip_str_or_absent (e : gmap string Value) (k d : string) :
  (forall v, e !! k = Some v -> exists x, v = VStr x) ->
  exists x, get_strip e k d = POk x.
Proof.
  intros H. unfold get_strip. destruct (e !! k) as [v|] eqn:E; [|eauto].
  destruct (H v eq_refl) as [x ->]. eauto.
Qed.

(** X21: a ready email whose recipient is a non-empty list of empty
    entries, with string subject and body, is saved by the outbox when
    the directory and the file can be written: an email file is written
    although no entry names anybody. *)
Theorem X_email_without_addresses_saved (ob : Outbox) (stamp now conv : string)
    (summ : Action -> string) (s : State) (l : list Value) :
  is_ready_for_execution s = POk true -> intent s = Some "send_email" ->
  entities s !! "recipient" = Some (VList l) ->
  l <> [] -> Forall (fun v => truthy v = false) l ->
  (forall v, entities s !! "subject" = Some v -> exists x, v = VStr x) ->
  (forall v, entities s !! "body" = Some v -> exists x, v = VStr x) ->
  ob_mkdir ob = IOOk -> ob_write ob = IOOk ->
  exists s' fn sm,
    handle_action_execution (outbox_env ob stamp now conv summ) s
    = (s', POk (Some (ExecSaved fn (os_path_join (ob_dir ob) fn) sm))).
Proof.
  intros R I Hr NE F Hs Hb Hm Hw.
  destruct (is_ready_email_filled s R I) as (_ & C & _ & _).
  rewrite (handle_ready _ s R). cbv zeta. simpl env_save.
  unfold save_action_to_outbox. simpl a_type. simpl a_entities. rewrite I. simpl.
  unfold save_email_action.
  assert (V : fst (validate_email_data (entities s)) = true).
  { unfold validate_email_data. simpl. rewrite Hr. simpl default.
    rewrite (validate_list_falsy l NE F).
    destruct l as [|v l]; [congruence|]. simpl.
    rewrite orb_comm. exact C. }
  destruct (validate_email_data (entities s)) as [ok m]. simpl in V. subst ok.
  simpl negb. cbv iota. rewrite Hm.
  destruct (get_strip_str_or_absent (entities s) "subject" "" Hs) as [x Ex]. rewrite Ex.
  destruct (get_strip_str_or_absent (entities s) "body" "" Hb) as [y Ey]. rewrite Ey.
  destruct y as [|c y]; cbv iota beta; rewrite ?Ex, Hw; eauto.
Qed.

Lemma X_email_without_addresses_saved_witness :
  let s := {| intent := Some "send_email";
              entities_obj := EDict (ents [("recipient", VList [VStr ""]);
                                           ("body", VStr "hi")]) [];
              awaiting_confirmation := false; awaiting_email_addresses := false;
              history := []; session_active := true; last_saved_action := None |} in
  exists s' fn sm,
    handle_action_execution
      (outbox_env (mkOutbox "outbox" IOOk IOOk) "20261016_090000"
         "2026-10-16T09:00:00" "conv_1" (fun _ => "To : Message from Assistant")) s
    = (s', POk (Some (ExecSaved fn (os_path_join "outbox" fn) sm))).
Proof.
  intros s.
  apply (X_email_without_addresses_saved (mkOutbox "outbox" IOOk IOOk) "20261016_090000"
           "2026-10-16T09:00:00" "conv_1" (fun _ => "To : Message from Assistant") s
           [VStr ""]); try reflexivity.
  - discriminate.
  - repeat constructor.
  - intros v Hv. vm_compute in Hv. discriminate.
  - intros v Hv. vm_compute in Hv. injection Hv as <-. eauto.
Defined.

(** X22: when the manager executes, [save_action_to_outbox] is always
    called with a known type: a ready state has the meeting or the email
    intent, and the call goes to [save_meeting_action] or
    [save_email_action] with the session's entities; the
    "Unknown action type" answer never occurs. *)
Theorem X_execution_dispatch_known_type (ob : Outbox) (stamp now conv : string)
    (summ : Action -> string) (s : State) (a : Action) :
  is_ready_for_execution s = POk true ->
  get_action_for_execution (outbox_env ob stamp now conv summ) s = POk (Some a) ->
  (intent s = Some "schedule_meeting"
   /\ env_save (outbox_env ob stamp now conv summ) a = save_meeting_action (entities s) ob stamp)
  \/ (intent s = Some "send_email"
      /\ env_save (outbox_env ob stamp now conv summ) a = save_email_action (entities s) ob stamp).
Proof.
  intros R G. unfold get_action_for_execution in G. rewrite R in G.
  injection G as <-. simpl. unfold save_action_to_outbox. simpl.
  unfold is_ready_for_execution in R.
  destruct (opt_str_eqb (intent s) "schedule_meeting") eqn:M.
  - left. split; [apply opt_str_eqb_true; exact M|reflexivity].
  - destruct (opt_str_eqb (intent s) "send_email") eqn:E.
    + right. split; [apply opt_str_eqb_true; exact E|reflexivity].
    + simpl in R. rewrite andb_false_r in R. discriminate.
Qed.

Lemma X_execution_dispatch_known_type_witness :
  exists a,
    get_action_for_execution (outbox_env (mkOutbox "outbox" IOOk IOOk) "20261016_090000"
       "2026-10-16T09:00:00" "conv_1" (fun _ => "")) state_after_failed_save = POk (Some a)
    /\ ((intent state_after_failed_save = Some "schedule_meeting"
         /\ env_save (outbox_env (mkOutbox "outbox" IOOk IOOk) "20261016_090000"
              "2026-10-16T09:00:00" "conv_1" (fun _ => "")) a
            = save_meeting_action (entities state_after_failed_save)
                (mkOutbox "outbox" IOOk IOOk) "20261016_090000")
        \/ (intent state_after_failed_save = Some "send_email"
            /\ env_save (outbox_env (mkOutbox "outbox" IOOk IOOk) "20261016_090000"
                 "2026-10-16T09:00:00" "conv_1" (fun _ => "")) a
               = save_email_action (entities state_after_failed_save)
                   (mkOutbox "outbox" IOOk IOOk) "20261016_090000")).
Proof.
  eexists. split; [vm_compute; reflexivity|].
  apply X_execution_dispatch_known_type; vm_compute; reflexivity.
Defined.
